(** * stl-repair: a shallow embedding of [src/stl_repair/cli.py]

  The tool is a command-line wrapper that drives Blender's Python API
  ([bpy]).  Everything the script does is a sequence of guarded calls into
  that host.  The development below has four layers:

  - [PyStr]: the [str] and [os.path] functions the script uses;
  - [PurePath]: [pathlib.PurePosixPath] as shipped with Python 3.11 (the
    interpreter bundled with the Blender releases that provide
    [wm.stl_import]), restricted to the members the script touches;
  - [Blender]: the host.  The scene the script reads and writes ([obj.name],
    [obj.location], the active object, the selection) is concrete; the
    operators, the add-on machinery, the file system and the network are
    fields of a [Host] record, i.e. arbitrary functions on the world that
    return normally or raise;
  - [Cli]: the functions of [cli.py], written in a small monad that threads
    the world, collects a trace of observable events and propagates Python
    exceptions and [SystemExit].

  Strings are byte strings; [str.lower] is modelled on ASCII letters (this
  agrees with Python on the comparison with [".stl"] the script makes).
  Paths are POSIX paths ([os.sep = "/"]). *)

From Stdlib Require Import String Ascii List Bool Arith ZArith Lia.
Import ListNotations.
Local Open Scope string_scope.

(* ================================================================== *)
(** ** Python values shared by all layers *)

(** An instance of a subclass of [Exception]: class name and [str(e)]. *)
Inductive pyexn : Type :=
| PyExn (cls : string) (msg : string).

Definition exn_class (e : pyexn) : string := let (c, _) := e in c.
Definition exn_str (e : pyexn) : string := let (_, m) := e in m.

(** Result of a pure library function that may raise. *)
Inductive pyres (A : Type) : Type :=
| PyOk (a : A)
| PyErr (e : pyexn).
Arguments PyOk {A} a.
Arguments PyErr {A} e.

(** Keyword-argument values the script passes to operators. *)
Inductive pyval : Type :=
| VStr (s : string)
| VBool (b : bool).

Definition kwargs : Type := list (string * pyval).

(* ================================================================== *)
(** ** [str] and [os.path] *)

Module PyStr.

Definition slash : ascii := "/"%char.
Definition dot : ascii := "."%char.

(** [c in s] *)
Fixpoint has_char (c : ascii) (s : string) : bool :=
  match s with
  | EmptyString => false
  | String a s' => Ascii.eqb a c || has_char c s'
  end.

(** [s.rsplit(c, 1)] when [c] occurs in [s]: the text before and after the
    last occurrence.  [None] stands for the one-element list Python returns
    when [c] does not occur. *)
Fixpoint rsplit1 (c : ascii) (s : string) : option (string * string) :=
  match s with
  | EmptyString => None
  | String a s' =>
      match rsplit1 c s' with
      | Some (l, r) => Some (String a l, r)
      | None => if Ascii.eqb a c then Some (EmptyString, s') else None
      end
  end.

(** [s.split(c)] for a one-character separator. *)
Fixpoint split_on (c : ascii) (s : string) : list string :=
  match s with
  | EmptyString => [EmptyString]
  | String a s' =>
      if Ascii.eqb a c then EmptyString :: split_on c s'
      else match split_on c s' with
           | x :: xs => String a x :: xs
           | [] => [String a EmptyString]
           end
  end.

(** [c.join(l)] *)
Fixpoint join (c : ascii) (l : list string) : string :=
  match l with
  | [] => EmptyString
  | [x] => x
  | x :: xs => x ++ String c (join c xs)
  end.

Definition startswith (s p : string) : bool := String.prefix p s.

Fixpoint drop (n : nat) (s : string) : string :=
  match n, s with
  | O, _ => s
  | S k, String _ s' => drop k s'
  | S _, EmptyString => EmptyString
  end.

Definition endswith (s p : string) : bool :=
  (String.length p <=? String.length s)%nat
  && String.eqb (drop (String.length s - String.length p) s) p.

(** [s.lstrip(c)] and [s.rstrip(c)] for a single character. *)
Fixpoint lstrip (c : ascii) (s : string) : string :=
  match s with
  | String a s' => if Ascii.eqb a c then lstrip c s' else s
  | EmptyString => EmptyString
  end.

Fixpoint rstrip (c : ascii) (s : string) : string :=
  match s with
  | EmptyString => EmptyString
  | String a s' =>
      match rstrip c s' with
      | EmptyString => if Ascii.eqb a c then EmptyString else String a EmptyString
      | t => String a t
      end
  end.

Definition lower_char (a : ascii) : ascii :=
  let n := nat_of_ascii a in
  if ((65 <=? n) && (n <=? 90))%nat then ascii_of_nat (n + 32) else a.

(** [s.lower()] on ASCII letters. *)
Fixpoint lower (s : string) : string :=
  match s with
  | EmptyString => EmptyString
  | String a s' => String (lower_char a) (lower s')
  end.

(** [s.split(sep)[-1]] for a non-empty [sep]: the text after the last of
    the non-overlapping matches found scanning from the left.  [skip]
    counts the characters of the current match still to be passed over,
    [seg] is the segment that started after the latest match. *)
Fixpoint after_last_go (sep : string) (skip : nat) (seg s : string) : string :=
  match s with
  | EmptyString => seg
  | String _ s' =>
      match skip with
      | S k => after_last_go sep k seg s'
      | O =>
          if String.prefix sep s
          then after_last_go sep (String.length sep - 1)
                 (drop (String.length sep) s) s'
          else after_last_go sep 0 seg s'
      end
  end.

Definition split_last (sep s : string) : string := after_last_go sep 0 s s.

(** [posixpath.join(a, b)] *)
Definition path_join (a b : string) : string :=
  if startswith b "/" then b
  else if String.eqb a "" || endswith a "/" then a ++ b
  else a ++ "/" ++ b.

Fixpoint all_char (c : ascii) (s : string) : bool :=
  match s with
  | EmptyString => true
  | String a s' => Ascii.eqb a c && all_char c s'
  end.

(** [posixpath.dirname(p)] *)
Definition dirname (p : string) : string :=
  match rsplit1 slash p with
  | None => EmptyString
  | Some (l, _) =>
      let head := l ++ "/" in
      if all_char slash head then head else rstrip slash head
  end.

End PyStr.

(* ================================================================== *)
(** ** [pathlib.PurePosixPath] (Python 3.11) *)

Module PurePath.
Import PyStr.

(** A parsed path: the root (["" ], ["/"] or ["//"]) and the components
    after it.  CPython keeps the root as the first element of [_parts]; it
    is kept apart here. *)
Record Path : Type := mkPath { root : string; parts : list string }.

Definition ValueError (m : string) : pyexn := PyExn "ValueError" m.

(** [_PosixFlavour.splitroot] *)
Definition splitroot (part : string) : string * string :=
  if startswith part "/" then
    let stripped := lstrip slash part in
    if (String.length part - String.length stripped =? 2)%nat
    then ("//", stripped) else ("/", stripped)
  else ("", part).

Definition keep_part (x : string) : bool :=
  negb (String.eqb x "") && negb (String.eqb x ".").

(** [PurePosixPath(s)]: [_Flavour.parse_parts] on one string. *)
Definition parse (s : string) : Path :=
  let (r, rel) := splitroot s in
  mkPath r (filter keep_part (split_on slash rel)).

(** [str(p)] *)
Definition to_str (p : Path) : string :=
  match root p, parts p with
  | EmptyString, [] => "."
  | r, ps => r ++ join slash ps
  end.

(** [p.name] *)
Definition name (p : Path) : string := last (parts p) EmptyString.

(** The split of a file name at its last dot, as [suffix] and [stem] make
    it: [i = name.rfind('.')], used when [0 < i < len(name) - 1]. *)
Definition split_ext (n : string) : string * string :=
  match rsplit1 dot n with
  | Some (l, r) =>
      if String.eqb l "" || String.eqb r "" then (n, EmptyString)
      else (l, String dot r)
  | None => (n, EmptyString)
  end.

(** [p.stem] and [p.suffix] *)
Definition stem (p : Path) : string := fst (split_ext (name p)).
Definition suffix (p : Path) : string := snd (split_ext (name p)).

(** [p.parent] *)
Definition parent (p : Path) : Path := mkPath (root p) (removelast (parts p)).

(** The test [with_name] applies to the new name. *)
Definition invalid_name (n : string) : bool :=
  String.eqb n ""
  || endswith n "/"
  || negb (String.eqb (root (parse n)) "")
  || negb (List.length (parts (parse n)) =? 1)%nat.

(** [p.with_name(n)] *)
Definition with_name (p : Path) (n : string) : pyres Path :=
  if String.eqb (name p) "" then PyErr (ValueError "path has an empty name")
  else if invalid_name n then PyErr (ValueError "Invalid name")
  else PyOk (mkPath (root p) (removelast (parts p) ++ [n])).

(** [p.with_stem(s)] *)
Definition with_stem (p : Path) (s : string) : pyres Path :=
  with_name p (s ++ suffix p).

(** [p.with_suffix(sfx)] *)
Definition with_suffix (p : Path) (sfx : string) : pyres Path :=
  if has_char slash sfx then PyErr (ValueError "Invalid suffix")
  else if (negb (String.eqb sfx "") && negb (startswith sfx "."))
          || String.eqb sfx "."
  then PyErr (ValueError "Invalid suffix")
  else if String.eqb (name p) "" then PyErr (ValueError "path has an empty name")
  else PyOk (mkPath (root p) (removelast (parts p) ++ [stem p ++ sfx])).

(** [p / s] *)
Definition truediv (p : Path) (s : string) : Path :=
  let q := parse s in
  if String.eqb (root q) "" then mkPath (root p) (parts p ++ parts q) else q.

End PurePath.


(* ================================================================== *)
(** ** The host: Blender's scene and scripting API *)

Module Blender.
Import PurePath.

(** A Python [float] as the host stores coordinates: [mantissa * 2^exponent].
    The script only ever writes the literal [0.0]. *)
Inductive pyfloat : Type :=
| Float (mantissa exponent : Z).

Definition float_zero : pyfloat := Float 0 0.

(** A [bpy.types.Object], as far as the script looks at it.  Attribute
    assignment stores the value it is given; the length limit and the
    de-duplication Blender applies to data-block names are outside the
    model. *)
Record BObject : Type := mkObj {
  obj_name : string;
  obj_location : pyfloat * pyfloat * pyfloat
}.

(** Outcome of one operator call as the trace records it. *)
Inductive op_status : Type :=
| OpMissing
| OpRaised (e : pyexn)
| OpDone.

(** Observable events of a run, in the order they happen. *)
Inductive event : Type :=
| EvLog (level msg : string)
| EvOp (path : string) (kw : kwargs) (st : op_status)
| EvFetch (url dest : string)
| EvUnzip (archive : string)
| EvMakedirs (path : string)
| EvWrite (path content : string).

(** The classes of [OSError] that [Path.exists()] lets through.  It answers
    [False] to the errnos ENOENT, ENOTDIR, EBADF and ELOOP and to a
    [ValueError] of [stat], and re-raises every other [OSError]; the
    interpreter picks the class from the errno, so [FileNotFoundError] and
    [NotADirectoryError] never come out of it. *)
Inductive OSErrorKind : Type :=
| PlainOSError
| BlockingIOError
| ChildProcessError
| BrokenPipeError
| ConnectionAbortedError
| ConnectionRefusedError
| ConnectionResetError
| FileExistsError
| InterruptedError
| IsADirectoryError
| PermissionError
| ProcessLookupError
| TimeoutError.

Definition os_error_class (k : OSErrorKind) : string :=
  match k with
  | PlainOSError => "OSError"
  | BlockingIOError => "BlockingIOError"
  | ChildProcessError => "ChildProcessError"
  | BrokenPipeError => "BrokenPipeError"
  | ConnectionAbortedError => "ConnectionAbortedError"
  | ConnectionRefusedError => "ConnectionRefusedError"
  | ConnectionResetError => "ConnectionResetError"
  | FileExistsError => "FileExistsError"
  | InterruptedError => "InterruptedError"
  | IsADirectoryError => "IsADirectoryError"
  | PermissionError => "PermissionError"
  | ProcessLookupError => "ProcessLookupError"
  | TimeoutError => "TimeoutError"
  end.

Definition os_error (k : OSErrorKind) (msg : string) : pyexn :=
  PyExn (os_error_class k) msg.

(** What [Path.exists()] does: it returns a boolean, or re-raises the
    [OSError] of [stat]. *)
Inductive ExistsResult : Type :=
| ExistsIs (b : bool)
| ExistsRaises (k : OSErrorKind) (msg : string).

Section HostModel.
Context {H : Type}.

(** The world: the scene the script inspects, and everything else the host
    owns (mesh data, registered add-ons, file system, network) as [H]. *)
Record World : Type := mkWorld {
  objects : nat -> BObject;
  active : option nat;
  selected : list nat;
  host_data : H
}.

(** A host call returns or raises an [Exception]; either way it may have
    changed the world. *)
Inductive HostResult (A : Type) : Type :=
| HOk (a : A) (w : World)
| HRaise (e : pyexn) (w : World).

(** A callable operator, [bpy.ops.MOD.NAME], applied to keyword arguments. *)
Definition Operator : Type := kwargs -> World -> HostResult unit.

(** Everything the script asks of its environment.  [ops_getattr w m] is
    [getattr(bpy.ops, m, None)]; applying its result to [n] is
    [getattr(ops_mod, n)], [None] when [hasattr] is false.  [path_exists w p]
    is [Path(p).exists()].  A zip archive is the list of its members, name
    and content. *)
Record Host : Type := mkHost {
  ops_getattr : World -> string -> option (string -> option Operator);
  import_addon_utils : World -> HostResult unit;
  addon_utils_check : string -> World -> HostResult (bool * bool);
  user_resource : string -> string -> bool -> World -> HostResult string;
  invalidate_caches : World -> HostResult unit;
  os_path_isdir : World -> string -> bool;
  os_makedirs : string -> World -> HostResult unit;
  path_exists : World -> string -> ExistsResult;
  mkdtemp : World -> HostResult string;
  rmtree : string -> World -> HostResult unit;
  urlretrieve : string -> string -> World -> HostResult unit;
  zip_open : string -> World -> HostResult (list (string * string));
  write_file : string -> string -> World -> HostResult unit
}.

(** How the interpreter starts: [import bpy] fails, or gives a host. *)
Inductive Startup : Type :=
| BpyMissing (e : pyexn)
| BpyLoaded (h : Host).

Definition lookup_op (h : Host) (w : World) (m n : string) : option Operator :=
  match ops_getattr h w m with
  | None => None
  | Some om => om n
  end.

Definition upd_object (o : nat) (f : BObject -> BObject) (w : World) : World :=
  mkWorld (fun i => if Nat.eqb i o then f (objects w i) else objects w i)
          (active w) (selected w) (host_data w).

Definition name_of (w : World) (o : nat) : string := obj_name (objects w o).

Definition with_name_of (o : nat) (n : string) (w : World) : World :=
  upd_object o (fun b => mkObj n (obj_location b)) w.

(** [v[i] = x] on a three-component vector. *)
Definition set_axis (i : nat) (x : pyfloat)
  (v : pyfloat * pyfloat * pyfloat) : pyfloat * pyfloat * pyfloat :=
  let '(a, b, c) := v in
  match i with
  | 0 => (x, b, c)
  | 1 => (a, x, c)
  | 2 => (a, b, x)
  | _ => v
  end.

Definition with_location_axis (o i : nat) (x : pyfloat) (w : World) : World :=
  upd_object o (fun b => mkObj (obj_name b) (set_axis i x (obj_location b))) w.

Definition with_active (o : nat) (w : World) : World :=
  mkWorld (objects w) (Some o) (selected w) (host_data w).

End HostModel.

Arguments World H : clear implicits.
Arguments HostResult H A : clear implicits.
Arguments HOk {H A} a w.
Arguments HRaise {H A} e w.
Arguments Operator H : clear implicits.
Arguments Host H : clear implicits.
Arguments Startup H : clear implicits.

End Blender.

(* ================================================================== *)
(** ** The execution monad *)

Module Py.
Import Blender.

(** How a Python computation ends: a value, an [Exception] in flight, or
    [SystemExit] (which [except Exception] does not catch). *)
Inductive Outcome (A : Type) : Type :=
| Ret (a : A)
| Raise (e : pyexn)
| Exit (code : Z).
Arguments Ret {A} a.
Arguments Raise {A} e.
Arguments Exit {A} code.

Section Monad.
Context {H : Type}.

Record Result (A : Type) : Type := mkRes {
  outcome : Outcome A;
  world : World H;
  events : list event
}.
Arguments mkRes {A} _ _ _.
Arguments outcome {A} _.
Arguments world {A} _.
Arguments events {A} _.

Definition M (A : Type) : Type := World H -> Result A.

Definition ret {A} (a : A) : M A := fun w => mkRes (Ret a) w [].

Definition bind {A B} (m : M A) (k : A -> M B) : M B :=
  fun w =>
    let r := m w in
    match outcome r with
    | Ret a =>
        let r' := k a (world r) in
        mkRes (outcome r') (world r') (events r ++ events r')
    | Raise e => mkRes (Raise e) (world r) (events r)
    | Exit c => mkRes (Exit c) (world r) (events r)
    end.

Definition raise {A} (e : pyexn) : M A := fun w => mkRes (Raise e) w [].

(** [sys.exit(code)] *)
Definition sys_exit {A} (code : Z) : M A := fun w => mkRes (Exit code) w [].

Definition emit (ev : event) : M unit := fun w => mkRes (Ret tt) w [ev].

Definition get_world : M (World H) := fun w => mkRes (Ret w) w [].

Definition modify (f : World H -> World H) : M unit :=
  fun w => mkRes (Ret tt) (f w) [].

(** [try: m  except Exception as e: handler e] *)
Definition try_except {A} (m : M A) (handler : pyexn -> M A) : M A :=
  fun w =>
    let r := m w in
    match outcome r with
    | Raise e =>
        let r' := handler e (world r) in
        mkRes (outcome r') (world r') (events r ++ events r')
    | _ => r
    end.

(** [with ctx: m], for a context manager whose exit runs [cleanup]: the
    clean-up runs however [m] ends, and an exception it raises replaces the
    outcome of [m]. *)
Definition with_cleanup {A} (m : M A) (cleanup : M unit) : M A :=
  fun w =>
    let r := m w in
    let rc := cleanup (world r) in
    match outcome rc with
    | Ret _ => mkRes (outcome r) (world rc) (events r ++ events rc)
    | Raise e => mkRes (Raise e) (world rc) (events r ++ events rc)
    | Exit c => mkRes (Exit c) (world rc) (events r ++ events rc)
    end.

Definition host_call {A} (f : World H -> HostResult H A) : M A :=
  fun w =>
    match f w with
    | HOk a w' => mkRes (Ret a) w' []
    | HRaise e w' => mkRes (Raise e) w' []
    end.

Definition lift_pyres {A} (r : pyres A) : M A :=
  match r with
  | PyOk a => ret a
  | PyErr e => raise e
  end.

(** Exit status of the interpreter: 0 after a normal return, the code of a
    [SystemExit], 1 after an uncaught exception. *)
Definition exit_status {A} (o : Outcome A) : Z :=
  match o with
  | Ret _ => 0
  | Raise _ => 1
  | Exit c => c
  end.

End Monad.

Arguments Result H A : clear implicits.
Arguments M H A : clear implicits.
Arguments mkRes {H A} _ _ _.
Arguments outcome {H A} _.
Arguments world {H A} _.
Arguments events {H A} _.

Declare Scope py_scope.
Delimit Scope py_scope with py.
Notation "x <- m ;; k" := (bind m (fun x => k))
  (at level 61, m at next level, right associativity) : py_scope.
Notation "m ;; k" := (bind m (fun _ => k))
  (at level 61, right associativity) : py_scope.

End Py.

(* ================================================================== *)
(** ** [cli.py] *)

Module Cli.
Import PyStr PurePath Blender Py.
Local Open Scope py_scope.

(** The namespace [parse_args] returns.  The positional [input] and [-o] are
    kept as the command-line words; [input] and [output] below apply the
    [type=Path] conversion.  [-v] and [--no-log-file] are parsed and never
    read. *)
Record Args : Type := mkArgs {
  arg_input : string;
  arg_output : option string;
  arg_suffix : string;
  arg_verbose : Z;
  arg_no_log_file : bool;
  arg_force_basic : bool
}.

Definition input (a : Args) : Path := parse (arg_input a).
Definition output (a : Args) : option Path := option_map parse (arg_output a).

(** Defaults of the optional arguments. *)
Definition default_args (inp : string) : Args :=
  mkArgs inp None "_fixed" 2 false false.

Definition addon_module : string := "object_print3d_utils".
Definition addon_url : string :=
  "https://github.com/blender/blender-addons/archive/refs/heads/main.zip".
Definition archive_prefix : string := "blender-addons-main/".

Definition RuntimeError (m : string) : pyexn := PyExn "RuntimeError" m.
Definition IndexError (m : string) : pyexn := PyExn "IndexError" m.
Definition AttributeError (m : string) : pyexn := PyExn "AttributeError" m.

Definition import_failed : pyexn := RuntimeError "Failed to import STL".
Definition export_failed : pyexn := RuntimeError "Failed to export STL".
Definition no_object : pyexn := IndexError "list index out of range".

Section Script.
Context {H : Type}.
Variable h : Host H.

Definition log (level msg : string) : M H unit := emit (EvLog level msg).

(** A direct call [bpy.ops.MOD.NAME(kwargs)]: a missing attribute raises
    [AttributeError], a failing operator raises what the host raises. *)
Definition call_op (m n : string) (kw : kwargs) : M H unit :=
  w <- get_world ;;
  match lookup_op h w m n with
  | None =>
      emit (EvOp (m ++ "." ++ n) kw OpMissing) ;;
      raise (AttributeError ("bpy.ops." ++ m ++ "." ++ n))
  | Some op =>
      try_except
        (host_call (op kw) ;; emit (EvOp (m ++ "." ++ n) kw OpDone))
        (fun e => emit (EvOp (m ++ "." ++ n) kw (OpRaised e)) ;; raise e)
  end.

(** The loop body of the extraction, then the rest of [zf.namelist()]. *)
Fixpoint extract_members (user_addon_dir : string)
  (members : list (string * string)) : M H unit :=
  match members with
  | [] => ret tt
  | (m, content) :: rest =>
      (if startswith m (archive_prefix ++ addon_module ++ "/") then
         let rel := split_last archive_prefix m in
         let target_path := path_join user_addon_dir rel in
         if endswith m "/" then
           emit (EvMakedirs target_path) ;;
           host_call (os_makedirs h target_path)
         else
           emit (EvMakedirs (dirname target_path)) ;;
           host_call (os_makedirs h (dirname target_path)) ;;
           emit (EvWrite target_path content) ;;
           host_call (write_file h target_path content)
       else ret tt) ;;
      extract_members user_addon_dir rest
  end.

(** The body of [with tempfile.TemporaryDirectory() as td]. *)
Definition download_and_extract (user_addon_dir td : string) : M H unit :=
  let zip_path := path_join td "addons.zip" in
  emit (EvFetch addon_url zip_path) ;;
  host_call (urlretrieve h addon_url zip_path) ;;
  emit (EvUnzip zip_path) ;;
  members <- host_call (zip_open h zip_path) ;;
  extract_members user_addon_dir members.

Definition attempt_install_print_addon : M H bool :=
  try_except
    (user_addon_dir <- host_call (user_resource h "SCRIPTS" "addons" true) ;;
     let addon_folder := path_join user_addon_dir addon_module in
     w <- get_world ;;
     (if negb (os_path_isdir h w addon_folder) then
        log "INFO" "Downloading object_print3d_utils (blender-addons main)..." ;;
        td <- host_call (mkdtemp h) ;;
        with_cleanup (download_and_extract user_addon_dir td)
                     (host_call (rmtree h td)) ;;
        log "INFO" ("Add-on extracted to " ++ addon_folder)
      else ret tt) ;;
     host_call (invalidate_caches h) ;;
     call_op "preferences" "addon_enable" [("module", VStr addon_module)] ;;
     log "INFO" "Enabled object_print3d_utils after install" ;;
     ret true)
    (fun e =>
       log "WARNING" ("Automatic add-on install failed: " ++ exn_str e) ;;
       ret false).

(** The inner [try] of [enable_print_addon]: [true] stands for its
    [return True]. *)
Definition try_enable (res : bool * bool) : M H bool :=
  if fst res || snd res then
    try_except
      (call_op "preferences" "addon_enable" [("module", VStr addon_module)] ;;
       log "DEBUG" "3D Print add-on enabled" ;;
       ret true)
      (fun e => log "DEBUG" ("Enable failure: " ++ exn_str e) ;; ret false)
  else ret false.

Definition install_notice : event :=
  EvLog "INFO" "3D Print add-on not present; attempting install".

Definition enable_print_addon : M H bool :=
  try_except
    (host_call (import_addon_utils h) ;;
     res <- host_call (addon_utils_check h addon_module) ;;
     enabled <- try_enable res ;;
     if enabled then ret true
     else emit install_notice ;; attempt_install_print_addon)
    (fun e => log "DEBUG" ("Add-on check failed: " ++ exn_str e) ;; ret false).

Definition unpack_error : pyexn :=
  ValueError "not enough values to unpack (expected 2, got 1)".

Definition safe_call (op_path : string) (kw : kwargs) : M H bool :=
  match rsplit1 dot op_path with
  | None => raise unpack_error
  | Some (m, n) =>
      w <- get_world ;;
      match lookup_op h w m n with
      | None =>
          emit (EvOp op_path kw OpMissing) ;;
          log "DEBUG" ("Operator missing: bpy.ops." ++ op_path) ;;
          ret false
      | Some op =>
          try_except
            (host_call (op kw) ;;
             emit (EvOp op_path kw OpDone) ;;
             ret true)
            (fun e =>
               emit (EvOp op_path kw (OpRaised e)) ;;
               log "DEBUG" ("Operator " ++ op_path ++ " failed: " ++ exn_str e) ;;
               ret false)
      end
  end.

Definition basic_notice : event := EvLog "INFO" "Applying basic mesh repair".

Definition basic_mesh_repair (obj : nat) : M H unit :=
  emit basic_notice ;;
  modify (with_active obj) ;;
  safe_call "object.mode_set" [("mode", VStr "EDIT")] ;;
  safe_call "mesh.select_all" [("action", VStr "SELECT")] ;;
  merged <- safe_call "mesh.remove_doubles" [] ;;
  (if negb merged then safe_call "mesh.merge_by_distance" [] ;; ret tt
   else ret tt) ;;
  safe_call "mesh.fill_holes" [] ;;
  safe_call "mesh.normals_make_consistent" [("inside", VBool false)] ;;
  safe_call "object.mode_set" [("mode", VStr "OBJECT")] ;;
  ret tt.

(** [bpy.context.view_layer.objects.active or bpy.context.selected_objects[0]] *)
Definition imported_object : M H nat :=
  w <- get_world ;;
  match active w with
  | Some o => ret o
  | None =>
      match selected w with
      | o :: _ => ret o
      | [] => raise no_object
      end
  end.

(** [if suffix: obj.name = obj.name + suffix] *)
Definition append_suffix (obj : nat) (sfx : string) : M H unit :=
  if String.eqb sfx "" then ret tt
  else w <- get_world ;; modify (with_name_of obj (name_of w obj ++ sfx)).

(** The [if use_print_addon] statement. *)
Definition repair_stage (use_print_addon : bool) (obj : nat) : M H unit :=
  if use_print_addon then
    try_except
      (log "INFO" "Running 3D Print add-on checks" ;;
       safe_call "mesh.print3d_check_all" [] ;;
       safe_call "mesh.print3d_clean_non_manifold" [] ;;
       ret tt)
      (fun e =>
         log "WARNING" ("3D print utilities failed: " ++ exn_str e) ;;
         basic_mesh_repair obj)
  else basic_mesh_repair obj.

Definition export_kwargs (export_dir : Path) : kwargs :=
  [("filepath", VStr (to_str export_dir ++ "/"));
   ("display_type", VStr "DEFAULT");
   ("use_batch", VBool true);
   ("export_selected_objects", VBool true)].

(** Lines 141-157 of [repair_stl]: the export block. *)
Definition export_stage (output_path : Path) (obj : nat) : M H Path :=
  let export_dir := parent output_path in
  let export_name := stem output_path in
  w <- get_world ;;
  let old_name := name_of w obj in
  modify (with_name_of obj export_name) ;;
  ok <- safe_call "wm.stl_export" (export_kwargs export_dir) ;;
  if negb ok then raise export_failed
  else
    w' <- get_world ;;
    let final_file := truediv export_dir (name_of w' obj ++ ".stl") in
    modify (with_name_of obj old_name) ;;
    log "INFO" ("Wrote " ++ to_str final_file) ;;
    ret final_file.

Definition import_kwargs (input_path : Path) : kwargs :=
  [("filepath", VStr (to_str input_path));
   ("directory", VStr (to_str (parent input_path)))].

(** Lines 112-139 of [repair_stl]: reset the scene, import, centre and
    rename the object, repair.  The value is [obj]. *)
Definition load_and_repair (input_path : Path)
  (use_print_addon : bool) (sfx : string) : M H nat :=
  safe_call "object.select_all" [("action", VStr "SELECT")] ;;
  safe_call "object.delete" [("use_global", VBool false); ("confirm", VBool false)] ;;
  ok <- safe_call "wm.stl_import" (import_kwargs input_path) ;;
  if negb ok then raise import_failed
  else
    obj <- imported_object ;;
    safe_call "object.origin_set"
      [("type", VStr "ORIGIN_CENTER_OF_VOLUME"); ("center", VStr "MEDIAN")] ;;
    modify (with_location_axis obj 0 float_zero) ;;
    modify (with_location_axis obj 1 float_zero) ;;
    modify (with_location_axis obj 2 float_zero) ;;
    append_suffix obj sfx ;;
    repair_stage use_print_addon obj ;;
    ret obj.

Definition repair_stl (input_path output_path : Path)
  (use_print_addon : bool) (sfx : string) : M H Path :=
  obj <- load_and_repair input_path use_print_addon sfx ;;
  export_stage output_path obj.

(** Lines 195-199 of [main]: the output path. *)
Definition main_output (a : Args) : pyres Path :=
  let chosen :=
    match output a with
    | Some o => PyOk o
    | None => with_stem (input a) (stem (input a) ++ arg_suffix a)
    end in
  match chosen with
  | PyErr e => PyErr e
  | PyOk o =>
      if negb (String.eqb (lower (suffix o)) ".stl")
      then with_suffix o ".stl" else PyOk o
  end.

(** The fourth argument of the call to [repair_stl]. *)
Definition main_suffix (a : Args) : string :=
  match output a with
  | Some _ => ""
  | None => arg_suffix a
  end.

(** Lines 202-206 of [main]. *)
Definition choose_addon (a : Args) : M H bool :=
  if negb (arg_force_basic a) then
    use_addon <- enable_print_addon ;;
    (if negb use_addon then log "INFO" "Proceeding without 3D Print add-on"
     else ret tt) ;;
    ret use_addon
  else ret false.

(** The [try] statement that ends [main]. *)
Definition guarded_repair (a : Args) (out : Path) (use_addon : bool) : M H unit :=
  try_except
    (final_file <- repair_stl (input a) out use_addon (main_suffix a) ;;
     log "INFO" ("Repaired file saved: " ++ to_str final_file))
    (fun e => log "ERROR" ("Repair failed: " ++ exn_str e) ;; sys_exit 2).

Definition main (a : Args) : M H unit :=
  w <- get_world ;;
  match path_exists h w (to_str (input a)) with
  | ExistsRaises k msg => raise (os_error k msg)
  | ExistsIs false =>
      log "ERROR" ("Input file does not exist: " ++ to_str (input a)) ;;
      sys_exit 1
  | ExistsIs true =>
      out <- lift_pyres (main_output a) ;;
      log "INFO" ("Repairing " ++ to_str (input a)) ;;
      use_addon <- choose_addon a ;;
      guarded_repair a out use_addon
  end.

End Script.

(** The module as the interpreter runs it: the guarded [import bpy] at its
    top, then [main()].  The message of the guard is kept as the f-string
    builds it; loguru formats it once more because of the [file=] keyword,
    and should that raise the interpreter still ends with status 1. *)
Definition run_cli {H : Type} (s : Startup H) (a : Args) : M H unit :=
  match s with
  | BpyMissing e =>
      emit (EvLog "ERROR"
              ("ERROR: This script must be executed inside Blender's Python. ("
               ++ exn_str e ++ ")")) ;;
      sys_exit 1
  | BpyLoaded h => main h a
  end.

End Cli.

(* ================================================================== *)
(** ** A small configurable host, for concrete runs *)

Module Demo.
Import PyStr PurePath Blender Py Cli.

(** What [wm.stl_import] does: imports and selects the object, returns
    leaving nothing active or selected, or raises. *)
Inductive import_mode : Type :=
| ImportSelects
| ImportLeavesNothing
| ImportRaises.

(** The behaviour of one operator: absent, raising, or returning. *)
Inductive op_mode : Type :=
| Absent
| Raising
| Working.

Record Config : Type := mkConfig {
  cfg_import : import_mode;
  cfg_export : op_mode;
  cfg_remove_doubles : op_mode;
  cfg_print3d : op_mode;
  cfg_addon_check : option (bool * bool);
  cfg_addon_enable : op_mode;
  cfg_network : bool;
  cfg_archive : list (string * string)
}.

(** The host keeps the set of paths that exist on disk. *)
Definition Disk : Type := list string.

Definition on_disk (d : Disk) (p : string) : bool := existsb (String.eqb p) d.

(** Paths below [/root/] sit in a directory the user may not search:
    [stat] fails there with EACCES. *)
Definition locked (p : string) : bool := PyStr.startswith p "/root/".

Definition add_path (p : string) (w : World Disk) : World Disk :=
  mkWorld (objects w) (active w) (selected w) (p :: host_data w).

Definition op_of_mode (m : op_mode) (what : string) : option (Operator Disk) :=
  match m with
  | Absent => None
  | Raising => Some (fun _ w => HRaise (RuntimeError (what ++ " failed")) w)
  | Working => Some (fun _ w => HOk tt w)
  end.

Definition unit_cube : BObject :=
  mkObj "model" (Float 1 0, Float 1 1, Float 3 0).

Definition op_import (m : import_mode) : Operator Disk :=
  fun _ w =>
    match m with
    | ImportSelects =>
        HOk tt (mkWorld (fun i => if Nat.eqb i 0 then unit_cube else objects w i)
                        (Some 0) [0] (host_data w))
    | ImportLeavesNothing => HOk tt (mkWorld (objects w) None [] (host_data w))
    | ImportRaises => HRaise (RuntimeError "Error: cannot read file") w
    end.

Definition one_of (n : string) (names : list string) : bool :=
  existsb (String.eqb n) names.

Definition demo_ops (c : Config) (m : string) : option (string -> option (Operator Disk)) :=
  if String.eqb m "wm" then
    Some (fun n =>
            if String.eqb n "stl_import" then Some (op_import (cfg_import c))
            else if String.eqb n "stl_export" then op_of_mode (cfg_export c) "export"
            else None)
  else if String.eqb m "object" then
    Some (fun n =>
            if one_of n ["select_all"; "delete"; "origin_set"; "mode_set"]
            then op_of_mode Working n else None)
  else if String.eqb m "mesh" then
    Some (fun n =>
            if String.eqb n "remove_doubles"
            then op_of_mode (cfg_remove_doubles c) n
            else if one_of n ["print3d_check_all"; "print3d_clean_non_manifold"]
            then op_of_mode (cfg_print3d c) n
            else if one_of n ["select_all"; "merge_by_distance"; "fill_holes";
                              "normals_make_consistent"]
            then op_of_mode Working n else None)
  else if String.eqb m "preferences" then
    Some (fun n =>
            if String.eqb n "addon_enable"
            then op_of_mode (cfg_addon_enable c) n else None)
  else None.

Definition addons_dir : string := "/cfg/scripts/addons".

Definition demo_host (c : Config) : Host Disk :=
  mkHost
    (fun _ m => demo_ops c m)
    (fun w => match cfg_addon_check c with
              | Some _ => HOk tt w
              | None => HRaise (PyExn "ModuleNotFoundError" "No module named 'addon_utils'") w
              end)
    (fun _ w => match cfg_addon_check c with
                | Some r => HOk r w
                | None => HRaise (PyExn "NameError" "addon_utils") w
                end)
    (fun _ _ _ w => HOk addons_dir w)
    (fun w => HOk tt w)
    (fun w p => on_disk (host_data w) p)
    (fun p w => HOk tt (add_path p w))
    (fun w p => if locked p
                then ExistsRaises PermissionError
                       ("[Errno 13] Permission denied: '" ++ p ++ "'")
                else ExistsIs (on_disk (host_data w) p))
    (fun w => HOk "/tmp/td" w)
    (fun _ w => HOk tt w)
    (fun _ dest w =>
       if cfg_network c then HOk tt (add_path dest w)
       else HRaise (PyExn "URLError" "<urlopen error timed out>") w)
    (fun _ w => HOk (cfg_archive c) w)
    (fun p _ w => HOk tt (add_path p w)).


Definition empty_scene (d : Disk) : World Disk :=
  mkWorld (fun _ => mkObj "" (float_zero, float_zero, float_zero)) None [] d.

Definition sample_archive : list (string * string) :=
  [("blender-addons-main/", "");
   ("blender-addons-main/io_mesh_stl/__init__.py", "stl");
   ("blender-addons-main/object_print3d_utils/", "");
   ("blender-addons-main/object_print3d_utils/__init__.py", "init");
   ("blender-addons-main/object_print3d_utils/operators.py", "ops")].

(** A Blender with the add-on installed and working. *)
Definition full_config : Config :=
  mkConfig ImportSelects Working Working Working (Some (true, true))
           Working true sample_archive.

(** A Blender without the add-on, and a working network. *)
Definition bare_config : Config :=
  mkConfig ImportSelects Working Working Absent (Some (false, false))
           Working true sample_archive.

(** A Blender without the add-on and without network. *)
Definition offline_config : Config :=
  mkConfig ImportSelects Working Working Absent (Some (false, false))
           Working false sample_archive.

(** The add-on is enabled but its operators are not registered. *)
Definition broken_addon_config : Config :=
  mkConfig ImportSelects Working Working Absent (Some (true, true))
           Working true sample_archive.

(** The importer returns without leaving an object. *)
Definition empty_import_config : Config :=
  mkConfig ImportLeavesNothing Working Working Working (Some (true, true))
           Working true sample_archive.

End Demo.


(* ================================================================== *)
(** ** Reading a trace *)

Module Trace.
Import Blender.

Definition is_done (st : op_status) : bool :=
  match st with
  | OpDone => true
  | _ => false
  end.

Definition is_log (level msg : string) (ev : event) : bool :=
  match ev with
  | EvLog l m => String.eqb l level && String.eqb m msg
  | _ => false
  end.

Definition is_level (level : string) (ev : event) : bool :=
  match ev with
  | EvLog l _ => String.eqb l level
  | _ => false
  end.

(** A call of the operator [path], whatever became of it. *)
Definition is_op (path : string) (ev : event) : bool :=
  match ev with
  | EvOp p _ _ => String.eqb p path
  | _ => false
  end.

Definition is_op_done (path : string) (ev : event) : bool :=
  match ev with
  | EvOp p _ st => String.eqb p path && is_done st
  | _ => false
  end.

(** A call of [path] that found no operator or raised. *)
Definition is_op_failed (path : string) (ev : event) : bool :=
  match ev with
  | EvOp p _ st => String.eqb p path && negb (is_done st)
  | _ => false
  end.

Definition is_fetch (ev : event) : bool :=
  match ev with
  | EvFetch _ _ => true
  | _ => false
  end.

(** A call of an operator other than [path]. *)
Definition is_other_op (path : string) (ev : event) : bool :=
  match ev with
  | EvOp p _ _ => negb (String.eqb p path)
  | _ => false
  end.

(** A download from anywhere but [url]. *)
Definition is_fetch_not_from (url : string) (ev : event) : bool :=
  match ev with
  | EvFetch u _ => negb (String.eqb u url)
  | _ => false
  end.

(** Network and disk activity of an installation. *)
Definition is_install_io (ev : event) : bool :=
  match ev with
  | EvFetch _ _ | EvUnzip _ | EvMakedirs _ | EvWrite _ _ => true
  | _ => false
  end.

Definition logged (level msg : string) (evs : list event) : bool :=
  existsb (is_log level msg) evs.
Definition attempted (path : string) (evs : list event) : bool :=
  existsb (is_op path) evs.
Definition op_done (path : string) (evs : list event) : bool :=
  existsb (is_op_done path) evs.
Definition op_failed (path : string) (evs : list event) : bool :=
  existsb (is_op_failed path) evs.
Definition fetch_count (evs : list event) : nat :=
  List.length (filter is_fetch evs).

(** The operator calls of a trace, in order: path and keyword arguments. *)
Fixpoint op_calls (evs : list event) : list (string * kwargs) :=
  match evs with
  | [] => []
  | EvOp p kw _ :: rest => (p, kw) :: op_calls rest
  | _ :: rest => op_calls rest
  end.

(** The status of the first call of [path] in a trace. *)
Fixpoint status_of (path : string) (evs : list event) : option op_status :=
  match evs with
  | [] => None
  | EvOp p _ st :: rest => if String.eqb p path then Some st else status_of path rest
  | _ :: rest => status_of path rest
  end.

End Trace.

(* ================================================================== *)
(** ** What the specification says, in its own words *)

Module Spec.
Import PyStr PurePath Blender Py Cli Trace.

(** The host call behind [safe_call op_path kwargs] completes without
    raising: the operator exists and returns. *)
Definition op_completes {H} (h : Host H) (op_path : string) (kw : kwargs)
  (w : World H) : bool :=
  match rsplit1 dot op_path with
  | Some (m, n) =>
      match lookup_op h w m n with
      | Some op =>
          match op kw w with
          | HOk _ _ => true
          | HRaise _ _ => false
          end
      | None => false
      end
  | None => false
  end.

(** The generic repair sequence; [fallback] says whether
    [mesh.merge_by_distance] is tried after [mesh.remove_doubles]. *)
Definition generic_sequence (fallback : bool) : list (string * kwargs) :=
  [("object.mode_set", [("mode", VStr "EDIT")]);
   ("mesh.select_all", [("action", VStr "SELECT")]);
   ("mesh.remove_doubles", [])]
  ++ (if fallback then [("mesh.merge_by_distance", [])] else [])
  ++ [("mesh.fill_holes", []);
      ("mesh.normals_make_consistent", [("inside", VBool false)]);
      ("object.mode_set", [("mode", VStr "OBJECT")])].

(** An operator of the generic repair sequence. *)
Definition is_generic_op (ev : event) : bool :=
  match ev with
  | EvOp p _ _ =>
      existsb (String.eqb p)
        ["object.mode_set"; "mesh.select_all"; "mesh.remove_doubles";
         "mesh.merge_by_distance"; "mesh.fill_holes";
         "mesh.normals_make_consistent"]
  | _ => false
  end.

(** An operator of the 3D-print add-on. *)
Definition is_print3d_op (ev : event) : bool :=
  match ev with
  | EvOp p _ _ =>
      String.eqb p "mesh.print3d_check_all"
      || String.eqb p "mesh.print3d_clean_non_manifold"
  | _ => false
  end.

(** A download that is not from the add-on archive's URL. *)
Definition is_foreign_fetch : event -> bool := is_fetch_not_from addon_url.

(** The generic repair ran: its notice was logged. *)
Definition ran_basic_repair (evs : list event) : bool :=
  logged "INFO" "Applying basic mesh repair" evs.

(** [p] with its last component replaced by [n]. *)
Definition replace_name (p : Path) (n : string) : Path :=
  mkPath (root p) (removelast (parts p) ++ [n]).

(** The output path before the extension is looked at: [-o] when given,
    else the input with its stem extended by the suffix. *)
Definition chosen_output (a : Args) : Path :=
  match output a with
  | Some o => o
  | None =>
      replace_name (input a) (stem (input a) ++ arg_suffix a ++ suffix (input a))
  end.

(** The output path: the chosen one, its extension replaced by [.stl] unless
    it is [.stl] already, in any letter case. *)
Definition derived_output (a : Args) : Path :=
  let c := chosen_output a in
  if String.eqb (lower (suffix c)) ".stl" then c
  else replace_name c (stem c ++ ".stl").


(** The file an export to [output_path] is reported to have written. *)
Definition reported_file (output_path : Path) : Path :=
  truediv (parent output_path) (stem output_path ++ ".stl").




(** The three failures of [repair_stl] as a trace and the final world show
    them. *)
Definition import_left_nothing {H A} (r : Result H A) : Prop :=
  op_done "wm.stl_import" (events r) = true
  /\ attempted "object.origin_set" (events r) = false
  /\ active (world r) = None
  /\ selected (world r) = [].

(** The claim that a run exits with a non-zero code only when the import
    operator failed, the export operator failed, or the input is missing or
    unreadable ([exists()] does not return [True]). *)
Definition only_three_hard_failures : Prop :=
  forall (H : Type) (h : Host H) (a : Args) (w : World H),
    exit_status (outcome (main h a w)) <> 0%Z ->
    op_failed "wm.stl_import" (events (main h a w)) = true
    \/ op_failed "wm.stl_export" (events (main h a w)) = true
    \/ path_exists h w (to_str (input a)) <> ExistsIs true.

End Spec.

(* ================================================================== *)
(** ** Shapes of computations *)

Module Shape.
Import Blender Py Trace.

Section Shapes.
Context {H : Type} {A : Type}.

(** [m] never ends in [SystemExit]. *)
Definition never_exits (m : M H A) : Prop :=
  forall w c, outcome (m w) <> Exit c.

(** [m] always returns a value. *)
Definition returns (m : M H A) : Prop :=
  forall w, exists a, outcome (m w) = Ret a.

(** [m] emits no event that [f] selects. *)
Definition silent (f : event -> bool) (m : M H A) : Prop :=
  forall w, existsb f (events (m w)) = false.

(** [m] starts at most [n] downloads. *)
Definition fetches_le (n : nat) (m : M H A) : Prop :=
  forall w, fetch_count (events (m w)) <= n.

End Shapes.
End Shape.

(* ================================================================== *)
(** ** [main.py], the legacy entry point *)

Module Legacy.
Import Blender Py Cli.

(** What [from stl_repair.cli import main] does: the import machinery raises
    (the package or one of its dependencies is not installed), or the module
    body of [cli.py] runs, with its own guarded [import bpy]. *)
Inductive PackageImport (H : Type) : Type :=
| PkgMissing (e : pyexn)
| PkgLoaded (s : Startup H).
Arguments PkgMissing {H} e.
Arguments PkgLoaded {H} s.

(** [except ImportError] catches [ImportError] and its built-in subclass
    [ModuleNotFoundError]. *)
Definition is_import_error (e : pyexn) : bool :=
  String.eqb (exn_class e) "ImportError"
  || String.eqb (exn_class e) "ModuleNotFoundError".

(** A run of the script: how it ends and what it printed. *)
Record LegacyRun (H : Type) : Type := mkLegacy {
  leg_result : Result H unit;
  leg_stdout : list string
}.
Arguments mkLegacy {H} _ _.
Arguments leg_result {H} _.
Arguments leg_stdout {H} _.

Definition not_installed_message : list string :=
  ["Error: stl-repair package not properly installed.";
   "Please install with: pip install -e ."].

(** [main.py] run as a script: the import and the call of [main] share one
    [try], whose handler prints two lines and exits with 1. *)
Definition legacy_main {H : Type} (imp : PackageImport H) (a : Args)
  (w : World H) : LegacyRun H :=
  let r :=
    match imp with
    | PkgMissing e => raise e w
    | PkgLoaded s => run_cli s a w
    end in
  match outcome r with
  | Raise e =>
      if is_import_error e
      then mkLegacy (mkRes (Exit 1) (world r) (events r)) not_installed_message
      else mkLegacy r []
  | _ => mkLegacy r []
  end.

End Legacy.

(* ================================================================== *)
(** ** More vocabulary for traces and paths *)

Module Plan.
Import PyStr PurePath Blender Py Cli Trace.

(** The files a trace wrote, in order: path and content. *)
Fixpoint writes (evs : list event) : list (string * string) :=
  match evs with
  | [] => []
  | EvWrite p c :: rest => (p, c) :: writes rest
  | _ :: rest => writes rest
  end.

(** A member of the archive that belongs to the add-on. *)
Definition addon_member (m : string) : bool :=
  startswith m (archive_prefix ++ addon_module ++ "/").

(** Where the extraction puts a member. *)
Definition target_of (user_addon_dir m : string) : string :=
  path_join user_addon_dir (split_last archive_prefix m).


(** [sep in s], for a non-empty [sep]. *)
Fixpoint occurs (sep s : string) : bool :=
  match s with
  | EmptyString => String.prefix sep EmptyString
  | String _ s' => String.prefix sep s || occurs sep s'
  end.

(** A file name as [parse] produces its components: not empty, not ["."],
    without a slash. *)
Definition plain_name (n : string) : bool :=
  keep_part n && negb (has_char slash n).

(** A path all of whose components are plain names. *)
Definition well_formed (p : Path) : bool := forallb plain_name (parts p).

End Plan.

(* ================================================================== *)
(** * Properties *)

Import PyStr PurePath Blender Py Cli Trace Spec Shape Demo Legacy Plan.
Local Open Scope py_scope.
Local Open Scope list_scope.

(** ** The library models on sample inputs *)

Example rsplit_samples :
  rsplit1 dot "mesh.remove_doubles" = Some ("mesh", "remove_doubles")
  /\ rsplit1 dot "a.b.c" = Some ("a.b", "c")
  /\ rsplit1 dot "nodot" = None.
Proof. repeat split; reflexivity. Qed.

Example split_last_samples :
  split_last archive_prefix "blender-addons-main/object_print3d_utils/ui.py"
  = "object_print3d_utils/ui.py"
  /\ split_last archive_prefix "x/blender-addons-main/y/blender-addons-main/z" = "z"
  /\ split_last archive_prefix "plain" = "plain".
Proof. repeat split; reflexivity. Qed.

Example os_path_samples :
  path_join "/cfg/addons" "object_print3d_utils" = "/cfg/addons/object_print3d_utils"
  /\ path_join "/cfg/addons/" "x" = "/cfg/addons/x"
  /\ path_join "/cfg/addons" "/abs" = "/abs"
  /\ dirname "/a/b/c.py" = "/a/b"
  /\ dirname "c.py" = ""
  /\ dirname "/c.py" = "/"
  /\ dirname "a//b" = "a".
Proof. repeat split; reflexivity. Qed.

Example pathlib_samples :
  to_str (parse "a//b/./c/") = "a/b/c"
  /\ to_str (parse "//a") = "//a"
  /\ to_str (parse "///a") = "/a"
  /\ to_str (parse "") = "."
  /\ to_str (parent (parse "/a/b.stl")) = "/a"
  /\ to_str (parent (parse "b.stl")) = "."
  /\ (stem (parse "b.tar.gz"), suffix (parse "b.tar.gz")) = ("b.tar", ".gz")
  /\ (stem (parse ".hidden"), suffix (parse ".hidden")) = (".hidden", "")
  /\ (stem (parse "b."), suffix (parse "b.")) = ("b.", "")
  /\ to_str (truediv (parse "/a") "b.stl") = "/a/b.stl"
  /\ with_suffix (parse "/") ".stl" = PyErr (ValueError "path has an empty name")
  /\ with_stem (parse "a/b.stl") "x/y" = PyErr (ValueError "Invalid name")
  /\ lower ".STL" = ".stl".
Proof. repeat split; reflexivity. Qed.

(** ** Laws of the monad *)

Section MonadLaws.
Context {H : Type}.
Implicit Types (w : World H) (f : event -> bool).

Lemma bind_ret_run {A B} (m : M H A) (k : A -> M H B) w a :
  outcome (m w) = Ret a ->
  bind m k w =
    mkRes (outcome (k a (world (m w)))) (world (k a (world (m w))))
          (events (m w) ++ events (k a (world (m w)))).
Proof. intros E. unfold bind. rewrite E. reflexivity. Qed.

Lemma bind_raise_run {A B} (m : M H A) (k : A -> M H B) w e :
  outcome (m w) = Raise e ->
  bind m k w = mkRes (Raise e) (world (m w)) (events (m w)).
Proof. intros E. unfold bind. rewrite E. reflexivity. Qed.

Lemma bind_ret_inv {A B} (m : M H A) (k : A -> M H B) w b :
  outcome (bind m k w) = Ret b ->
  exists a, outcome (m w) = Ret a
            /\ outcome (k a (world (m w))) = Ret b
            /\ world (bind m k w) = world (k a (world (m w)))
            /\ events (bind m k w) = events (m w) ++ events (k a (world (m w))).
Proof.
  unfold bind. destruct (outcome (m w)) as [a|e|c] eqn:E; simpl; intros Hb;
    try discriminate.
  exists a. auto.
Qed.

Lemma try_ret_inv {A} (m : M H A) (hd : pyexn -> M H A) w a :
  outcome (try_except m hd w) = Ret a ->
  (outcome (m w) = Ret a /\ try_except m hd w = m w)
  \/ exists e, outcome (m w) = Raise e /\ outcome (hd e (world (m w))) = Ret a.
Proof.
  unfold try_except. destruct (outcome (m w)) as [x|e|c] eqn:E; simpl; intros Ha.
  - left. split; [congruence | reflexivity].
  - right. exists e. auto.
  - left. split; [congruence | reflexivity].
Qed.

(** *** [never_exits] *)

Lemma never_exits_ret {A} (a : A) : never_exits (H:=H) (ret a).
Proof. intros w c. discriminate. Qed.

Lemma never_exits_raise {A} e : never_exits (H:=H) (A:=A) (raise e).
Proof. intros w c. discriminate. Qed.

Lemma never_exits_emit ev : never_exits (H:=H) (emit ev).
Proof. intros w c. discriminate. Qed.

Lemma never_exits_get : never_exits (H:=H) get_world.
Proof. intros w c. discriminate. Qed.

Lemma never_exits_modify g : never_exits (H:=H) (modify g).
Proof. intros w c. discriminate. Qed.

Lemma never_exits_host {A} (g : World H -> HostResult H A) :
  never_exits (host_call g).
Proof. intros w c. unfold host_call. destruct (g w); discriminate. Qed.

Lemma never_exits_lift {A} (r : pyres A) : never_exits (H:=H) (lift_pyres r).
Proof. destruct r; intros w c; discriminate. Qed.

Lemma never_exits_bind {A B} (m : M H A) (k : A -> M H B) :
  never_exits m -> (forall a, never_exits (k a)) -> never_exits (bind m k).
Proof.
  intros Hm Hk w c. unfold bind.
  destruct (outcome (m w)) as [a|e|c'] eqn:E; simpl.
  - apply Hk.
  - discriminate.
  - exfalso. exact (Hm w c' E).
Qed.

Lemma never_exits_try {A} (m : M H A) (hd : pyexn -> M H A) :
  never_exits m -> (forall e, never_exits (hd e)) -> never_exits (try_except m hd).
Proof.
  intros Hm Hh w c. unfold try_except.
  destruct (outcome (m w)) as [a|e|c'] eqn:E; simpl.
  - rewrite E. discriminate.
  - apply Hh.
  - exfalso. exact (Hm w c' E).
Qed.

Lemma never_exits_cleanup {A} (m : M H A) (cl : M H unit) :
  never_exits m -> never_exits cl -> never_exits (with_cleanup m cl).
Proof.
  intros Hm Hc w c. unfold with_cleanup.
  destruct (outcome (cl (world (m w)))) as [u|e|c'] eqn:E; simpl.
  - apply Hm.
  - discriminate.
  - exfalso. exact (Hc _ c' E).
Qed.

(** *** [returns] *)

Lemma returns_ret {A} (a : A) : returns (H:=H) (ret a).
Proof. intros w. exists a. reflexivity. Qed.

Lemma returns_emit ev : returns (H:=H) (emit ev).
Proof. intros w. exists tt. reflexivity. Qed.

Lemma returns_get : returns (H:=H) get_world.
Proof. intros w. exists w. reflexivity. Qed.

Lemma returns_modify g : returns (H:=H) (modify g).
Proof. intros w. exists tt. reflexivity. Qed.

Lemma returns_bind {A B} (m : M H A) (k : A -> M H B) :
  returns m -> (forall a, returns (k a)) -> returns (bind m k).
Proof.
  intros Hm Hk w. destruct (Hm w) as [a Ea].
  rewrite (bind_ret_run m k w a Ea). simpl. apply Hk.
Qed.

Lemma returns_try {A} (m : M H A) (hd : pyexn -> M H A) :
  never_exits m -> (forall e, returns (hd e)) -> returns (try_except m hd).
Proof.
  intros Hm Hh w. unfold try_except.
  destruct (outcome (m w)) as [a|e|c] eqn:E; simpl.
  - exists a. exact E.
  - apply Hh.
  - exfalso. exact (Hm w c E).
Qed.

Lemma returns_never_exits {A} (m : M H A) : returns m -> never_exits m.
Proof. intros Hm w c E. destruct (Hm w) as [a Ea]. congruence. Qed.

(** *** [silent] *)

Lemma silent_ret {A} f (a : A) : silent (H:=H) f (ret a).
Proof. intros w. reflexivity. Qed.

Lemma silent_raise {A} f e : silent (H:=H) (A:=A) f (raise e).
Proof. intros w. reflexivity. Qed.

Lemma silent_exit {A} f c : silent (H:=H) (A:=A) f (sys_exit c).
Proof. intros w. reflexivity. Qed.

Lemma silent_get f : silent (H:=H) f get_world.
Proof. intros w. reflexivity. Qed.

Lemma silent_modify f g : silent (H:=H) f (modify g).
Proof. intros w. reflexivity. Qed.

Lemma silent_host {A} f (g : World H -> HostResult H A) : silent f (host_call g).
Proof. intros w. unfold host_call. destruct (g w); reflexivity. Qed.

Lemma silent_lift {A} f (r : pyres A) : silent (H:=H) f (lift_pyres r).
Proof. destruct r; intros w; reflexivity. Qed.

Lemma silent_emit f ev : f ev = false -> silent (H:=H) f (emit ev).
Proof. intros E w. simpl. rewrite E. reflexivity. Qed.

Lemma silent_bind {A B} f (m : M H A) (k : A -> M H B) :
  silent f m -> (forall a, silent f (k a)) -> silent f (bind m k).
Proof.
  intros Hm Hk w. unfold bind.
  destruct (outcome (m w)) as [a|e|c]; simpl; try apply Hm.
  rewrite existsb_app, Hm, Hk. reflexivity.
Qed.

Lemma silent_try {A} f (m : M H A) (hd : pyexn -> M H A) :
  silent f m -> (forall e, silent f (hd e)) -> silent f (try_except m hd).
Proof.
  intros Hm Hh w. unfold try_except.
  destruct (outcome (m w)) as [a|e|c]; simpl; try apply Hm.
  rewrite existsb_app, Hm, Hh. reflexivity.
Qed.

Lemma silent_cleanup {A} f (m : M H A) (cl : M H unit) :
  silent f m -> silent f cl -> silent f (with_cleanup m cl).
Proof.
  intros Hm Hc w. unfold with_cleanup.
  destruct (outcome (cl (world (m w)))); simpl;
    rewrite existsb_app, Hm, Hc; reflexivity.
Qed.

(** *** [fetches_le] *)

Lemma fetch_count_app (a b : list event) :
  fetch_count (a ++ b) = fetch_count a + fetch_count b.
Proof. unfold fetch_count. rewrite filter_app, length_app. reflexivity. Qed.

Lemma silent_no_fetch {A} (m : M H A) : silent is_fetch m -> fetches_le 0 m.
Proof.
  intros Hm w. specialize (Hm w). unfold fetch_count.
  induction (events (m w)) as [|ev evs IH]; simpl in *; [lia|].
  apply orb_false_iff in Hm. destruct Hm as [E1 E2]. rewrite E1. auto.
Qed.

Lemma fetches_le_weaken {A} n n' (m : M H A) :
  n <= n' -> fetches_le n m -> fetches_le n' m.
Proof. intros Hn Hm w. specialize (Hm w). lia. Qed.

Lemma silent_no_fetch_le {A} n (m : M H A) : silent is_fetch m -> fetches_le n m.
Proof.
  intros Hm. apply (fetches_le_weaken 0); [lia | apply silent_no_fetch, Hm].
Qed.

Lemma fetches_le_bind {A B} n1 n2 (m : M H A) (k : A -> M H B) :
  fetches_le n1 m -> (forall a, fetches_le n2 (k a)) ->
  fetches_le (n1 + n2) (bind m k).
Proof.
  intros Hm Hk w. unfold bind. specialize (Hm w).
  destruct (outcome (m w)) as [a|e|c]; simpl; try lia.
  rewrite fetch_count_app. specialize (Hk a (world (m w))). lia.
Qed.

Lemma fetches_le_try {A} n1 n2 (m : M H A) (hd : pyexn -> M H A) :
  fetches_le n1 m -> (forall e, fetches_le n2 (hd e)) ->
  fetches_le (n1 + n2) (try_except m hd).
Proof.
  intros Hm Hh w. unfold try_except. specialize (Hm w).
  destruct (outcome (m w)) as [a|e|c]; simpl; try lia.
  rewrite fetch_count_app. specialize (Hh e (world (m w))). lia.
Qed.

Lemma fetches_le_cleanup {A} n1 n2 (m : M H A) (cl : M H unit) :
  fetches_le n1 m -> fetches_le n2 cl -> fetches_le (n1 + n2) (with_cleanup m cl).
Proof.
  intros Hm Hc w. unfold with_cleanup. specialize (Hm w).
  specialize (Hc (world (m w))).
  destruct (outcome (cl (world (m w)))); simpl; rewrite fetch_count_app; lia.
Qed.

End MonadLaws.

(** ** Strings *)

Lemma rsplit1_has_char (c : ascii) (s : string) :
  has_char c s = true -> exists l r, rsplit1 c s = Some (l, r).
Proof.
  induction s as [|a s IH]; simpl; [discriminate|].
  intros Hc. destruct (rsplit1 c s) as [[l r]|] eqn:E.
  - eauto.
  - destruct (Ascii.eqb a c) eqn:Ea; [eauto|].
    simpl in Hc. destruct (IH Hc) as (l & r & Hlr). discriminate.
Qed.

Lemma rsplit1_none (c : ascii) (s : string) :
  has_char c s = false -> rsplit1 c s = None.
Proof.
  induction s as [|a s IH]; simpl; [reflexivity|].
  intros Hc. apply orb_false_iff in Hc. destruct Hc as [Ha Hs].
  rewrite (IH Hs), Ha. reflexivity.
Qed.

(** ** [safe_call] *)

Section SafeCall.
Context {H : Type}.
Variable h : Host H.
Implicit Types (w : World H) (f : event -> bool).

(** The three ways a call of an operator path with a dot can go. *)
Lemma safe_call_run op_path kw w m n :
  rsplit1 dot op_path = Some (m, n) ->
  safe_call h op_path kw w =
    match lookup_op h w m n with
    | None =>
        mkRes (Ret false) w
          [EvOp op_path kw OpMissing;
           EvLog "DEBUG" ("Operator missing: bpy.ops." ++ op_path)%string]
    | Some op =>
        match op kw w with
        | HOk _ w' => mkRes (Ret true) w' [EvOp op_path kw OpDone]
        | HRaise e w' =>
            mkRes (Ret false) w'
              [EvOp op_path kw (OpRaised e);
               EvLog "DEBUG"
                 ("Operator " ++ op_path ++ " failed: " ++ exn_str e)%string]
        end
    end.
Proof.
  intros E. unfold safe_call. rewrite E.
  unfold bind at 1. simpl.
  destruct (lookup_op h w m n) as [op|]; [|reflexivity].
  unfold try_except, bind, host_call. simpl.
  destruct (op kw w) as [[] w'|e w']; reflexivity.
Qed.

Lemma safe_call_shape op_path kw w :
  has_char dot op_path = true ->
  exists st w' msgs,
    safe_call h op_path kw w =
      mkRes (Ret (is_done st)) w' (EvOp op_path kw st :: map (EvLog "DEBUG") msgs).
Proof.
  intros Hd. destruct (rsplit1_has_char _ _ Hd) as (m & n & E).
  rewrite (safe_call_run _ kw w _ _ E).
  destruct (lookup_op h w m n) as [op|].
  - destruct (op kw w) as [[] w'|e w'].
    + exists OpDone, w', []. reflexivity.
    + eexists (OpRaised e), w', [_]. reflexivity.
  - eexists OpMissing, w, [_]. reflexivity.
Qed.

Lemma safe_call_no_dot op_path kw w :
  has_char dot op_path = false ->
  safe_call h op_path kw w = mkRes (Raise unpack_error) w [].
Proof. intros Hd. unfold safe_call. rewrite (rsplit1_none _ _ Hd). reflexivity. Qed.

Lemma returns_safe_call op_path kw :
  has_char dot op_path = true -> returns (safe_call h op_path kw).
Proof.
  intros Hd w. destruct (safe_call_shape op_path kw w Hd) as (st & w' & msgs & E).
  rewrite E. simpl. eauto.
Qed.

Lemma never_exits_safe_call op_path kw : never_exits (safe_call h op_path kw).
Proof.
  intros w c. destruct (has_char dot op_path) eqn:Hd.
  - destruct (safe_call_shape op_path kw w Hd) as (st & w' & msgs & E).
    rewrite E. discriminate.
  - rewrite (safe_call_no_dot _ kw w Hd). discriminate.
Qed.

Lemma existsb_debug_logs f msgs :
  (forall msg, f (EvLog "DEBUG" msg) = false) ->
  existsb f (map (EvLog "DEBUG") msgs) = false.
Proof.
  intros Hf. induction msgs as [|x xs IH]; simpl; [reflexivity|].
  rewrite Hf, IH. reflexivity.
Qed.

Lemma silent_safe_call f op_path kw :
  (forall st, f (EvOp op_path kw st) = false) ->
  (forall msg, f (EvLog "DEBUG" msg) = false) ->
  silent f (safe_call h op_path kw).
Proof.
  intros Hop Hlog w. destruct (has_char dot op_path) eqn:Hd.
  - destruct (safe_call_shape op_path kw w Hd) as (st & w' & msgs & E).
    rewrite E. simpl. rewrite Hop, existsb_debug_logs; auto.
  - rewrite (safe_call_no_dot _ kw w Hd). reflexivity.
Qed.

End SafeCall.

(** C4.  For an operator path with a dot, [safe_call] returns a boolean and
    never raises or exits: it returns [True] exactly when the operator exists
    and the host call returns, and when it returns [False] (the operator is
    missing or the call raised) a DEBUG line was logged. *)
Theorem safe_call_never_raises {H : Type} (h : Host H)
  (op_path : string) (kw : kwargs) (w : World H) :
  has_char dot op_path = true ->
  outcome (safe_call h op_path kw w) = Ret (op_completes h op_path kw w)
  /\ (op_completes h op_path kw w = false ->
      existsb (is_level "DEBUG") (events (safe_call h op_path kw w)) = true).
Proof.
  intros Hd. destruct (rsplit1_has_char _ _ Hd) as (m & n & E).
  rewrite (safe_call_run h _ kw w _ _ E). unfold op_completes. rewrite E.
  destruct (lookup_op h w m n) as [op|].
  - destruct (op kw w) as [[] w'|e w']; simpl; split; auto; discriminate.
  - simpl. auto.
Qed.

Lemma safe_call_never_raises_witness :
  has_char dot "mesh.print3d_check_all" = true
  /\ outcome (safe_call (demo_host bare_config) "mesh.print3d_check_all" []
                (empty_scene []))
     = Ret (op_completes (demo_host bare_config) "mesh.print3d_check_all" []
              (empty_scene []))
  /\ (op_completes (demo_host bare_config) "mesh.print3d_check_all" []
        (empty_scene []) = false ->
      existsb (is_level "DEBUG")
        (events (safe_call (demo_host bare_config) "mesh.print3d_check_all" []
                   (empty_scene []))) = true).
Proof.
  split; [reflexivity|].
  apply (safe_call_never_raises (demo_host bare_config)
           "mesh.print3d_check_all" [] (empty_scene [])).
  reflexivity.
Defined.

(** Without a dot the unpacking of [rsplit] raises [ValueError]. *)
Lemma safe_call_without_dot {H : Type} (h : Host H) op_path kw (w : World H) :
  has_char dot op_path = false ->
  outcome (safe_call h op_path kw w) = Raise unpack_error.
Proof. intros Hd. rewrite (safe_call_no_dot h _ kw w Hd). reflexivity. Qed.

(** ** Stepping through a run *)

Section Stepping.
Context {H : Type}.
Implicit Types (w : World H).

Lemma bind_run_eq {A B} (m : M H A) (k : A -> M H B) w a w' evs :
  m w = mkRes (Ret a) w' evs ->
  bind m k w =
    mkRes (outcome (k a w')) (world (k a w')) (evs ++ events (k a w')).
Proof. intros E. unfold bind. rewrite E. reflexivity. Qed.

Lemma bind_assoc {A B C} (m : M H A) (k : A -> M H B) (k' : B -> M H C) w :
  bind (bind m k) k' w = bind m (fun a => bind (k a) k') w.
Proof.
  unfold bind. destruct (outcome (m w)) as [a|e|c]; simpl; try reflexivity.
  destruct (outcome (k a (world (m w)))) as [b|e|c]; simpl;
    rewrite ?app_assoc; reflexivity.
Qed.

Lemma bind_emit {B} ev (k : unit -> M H B) w :
  bind (emit ev) k w =
    mkRes (outcome (k tt w)) (world (k tt w)) (ev :: events (k tt w)).
Proof. reflexivity. Qed.

Lemma bind_modify {B} g (k : unit -> M H B) w :
  bind (modify g) k w =
    mkRes (outcome (k tt (g w))) (world (k tt (g w))) (events (k tt (g w))).
Proof. reflexivity. Qed.

Lemma bind_get {B} (k : World H -> M H B) w :
  bind get_world k w =
    mkRes (outcome (k w w)) (world (k w w)) (events (k w w)).
Proof. reflexivity. Qed.

Lemma bind_ret {A B} (a : A) (k : A -> M H B) w :
  bind (ret a) k w =
    mkRes (outcome (k a w)) (world (k a w)) (events (k a w)).
Proof. reflexivity. Qed.

End Stepping.

Lemma op_calls_app (a b : list event) :
  op_calls (a ++ b) = op_calls a ++ op_calls b.
Proof.
  induction a as [|ev a IH]; simpl; [reflexivity|].
  destruct ev; simpl; rewrite IH; reflexivity.
Qed.

Lemma op_calls_logs (level : string) (msgs : list string) :
  op_calls (map (EvLog level) msgs) = [].
Proof. induction msgs; simpl; auto. Qed.

Lemma status_of_logs (p level : string) (msgs : list string) (rest : list event) :
  status_of p (map (EvLog level) msgs ++ rest) = status_of p rest.
Proof. induction msgs; simpl; auto. Qed.

(** One [safe_call] of a literal operator path at the head of the run. *)
Ltac safe_step :=
  match goal with
  | |- context [bind (safe_call ?h ?p ?kw) ?k ?w] =>
      let st := fresh "st" in
      let w' := fresh "w" in
      let msgs := fresh "msgs" in
      let E := fresh "E" in
      destruct (safe_call_shape h p kw w eq_refl) as (st & w' & msgs & E);
      rewrite (bind_run_eq (safe_call h p kw) k w _ w' _ E);
      clear E; cbv beta; cbn [outcome world events]
  end.

Ltac plain_step :=
  first [ rewrite bind_emit | rewrite bind_modify | rewrite bind_get
        | rewrite bind_ret ];
  cbv beta; cbn [outcome world events].

(** ** The generic repair *)

Section BasicRepair.
Context {H : Type}.
Variable h : Host H.

Lemma basic_mesh_repair_run (obj : nat) (w : World H) :
  outcome (basic_mesh_repair h obj w) = Ret tt
  /\ exists st,
       status_of "mesh.remove_doubles" (events (basic_mesh_repair h obj w)) = Some st
       /\ op_calls (events (basic_mesh_repair h obj w))
          = generic_sequence (negb (is_done st)).
Proof.
  unfold basic_mesh_repair.
  plain_step. plain_step. safe_step. safe_step. safe_step.
  destruct st1; cbn [is_done negb]; rewrite ?bind_assoc;
    repeat first [safe_step | plain_step];
    (split; [reflexivity|]); eexists; simpl;
    repeat (rewrite ?status_of_logs, ?op_calls_app, ?op_calls_logs; simpl);
    split; reflexivity.
Qed.

End BasicRepair.


(** On a Blender whose [mesh.remove_doubles] is gone the fallback is taken. *)
Example generic_repair_with_fallback :
  op_calls (events (basic_mesh_repair
                      (demo_host (mkConfig ImportSelects Working Absent Absent
                                    None Working false []))
                      0 (empty_scene [])))
  = generic_sequence true.
Proof. vm_compute. reflexivity. Qed.

Example generic_repair_without_fallback :
  op_calls (events (basic_mesh_repair (demo_host full_config) 0 (empty_scene [])))
  = generic_sequence false.
Proof. vm_compute. reflexivity. Qed.

(** ** Shapes of the script's functions *)

Section ScriptShapes.
Context {H : Type}.
Variable h : Host H.
Implicit Types (w : World H) (f : event -> bool).

Lemma silent_call_op f m n kw :
  (forall st, f (EvOp (m ++ "." ++ n)%string kw st) = false) ->
  silent f (call_op h m n kw).
Proof.
  intros Hf. unfold call_op. apply silent_bind; [apply silent_get|].
  intros w. destruct (lookup_op h w m n) as [op|].
  - apply silent_try.
    + apply silent_bind; [apply silent_host|]. intros _. apply silent_emit, Hf.
    + intros e. apply silent_bind; [apply silent_emit, Hf|].
      intros _. apply silent_raise.
  - apply silent_bind; [apply silent_emit, Hf|]. intros _. apply silent_raise.
Qed.

Lemma never_exits_call_op m n kw : never_exits (call_op h m n kw).
Proof.
  unfold call_op. apply never_exits_bind; [apply never_exits_get|].
  intros w. destruct (lookup_op h w m n) as [op|].
  - apply never_exits_try.
    + apply never_exits_bind; [apply never_exits_host|].
      intros _. apply never_exits_emit.
    + intros e. apply never_exits_bind; [apply never_exits_emit|].
      intros _. apply never_exits_raise.
  - apply never_exits_bind; [apply never_exits_emit|].
    intros _. apply never_exits_raise.
Qed.

Lemma silent_extract f dir members :
  (forall p, f (EvMakedirs p) = false) ->
  (forall p c, f (EvWrite p c) = false) ->
  silent f (extract_members h dir members).
Proof.
  intros Hm Hw. induction members as [|[m content] rest IH]; simpl.
  - apply silent_ret.
  - apply silent_bind; [|intros _; exact IH].
    destruct (startswith m _); [|apply silent_ret].
    destruct (endswith m "/").
    + apply silent_bind; [apply silent_emit, Hm|]. intros _. apply silent_host.
    + repeat (apply silent_bind; [|intros _]);
        first [apply silent_emit; auto | apply silent_host].
Qed.

Lemma never_exits_extract dir members :
  never_exits (extract_members h dir members).
Proof.
  induction members as [|[m content] rest IH]; simpl.
  - apply never_exits_ret.
  - apply never_exits_bind; [|intros _; exact IH].
    destruct (startswith m _); [|apply never_exits_ret].
    destruct (endswith m "/");
      repeat (apply never_exits_bind; [|intros _]);
      first [apply never_exits_emit | apply never_exits_host].
Qed.

End ScriptShapes.

(** Structural proofs of [silent], [never_exits] and [returns]. *)
Ltac silence :=
  repeat first
    [ match goal with Hs : _ |- silent _ _ => solve [apply Hs] end
    | apply silent_ret | apply silent_raise | apply silent_exit
    | apply silent_get | apply silent_modify | apply silent_host
    | apply silent_lift
    | apply silent_emit; reflexivity
    | apply silent_safe_call; intros; reflexivity
    | apply silent_call_op; intros; reflexivity
    | apply silent_extract; intros; reflexivity
    | apply silent_bind; [|intros ?; cbv beta]
    | apply silent_try; [|intros ?; cbv beta]
    | apply silent_cleanup
    | match goal with |- silent _ (if ?b then _ else _) => destruct b end
    | match goal with |- silent _ (match ?x with _ => _ end) => destruct x end
    | progress unfold log ].

Ltac no_exit :=
  repeat first
    [ apply never_exits_ret | apply never_exits_raise | apply never_exits_emit
    | apply never_exits_get | apply never_exits_modify | apply never_exits_host
    | apply never_exits_lift | apply never_exits_safe_call
    | apply never_exits_call_op | apply never_exits_extract
    | apply never_exits_bind; [|intros ?; cbv beta]
    | apply never_exits_try; [|intros ?; cbv beta]
    | apply never_exits_cleanup
    | match goal with |- never_exits (if ?b then _ else _) => destruct b end
    | match goal with |- never_exits (match ?x with _ => _ end) => destruct x end
    | progress unfold log ].

Ltac always_returns :=
  repeat first
    [ apply returns_ret | apply returns_emit | apply returns_get
    | apply returns_modify
    | apply returns_safe_call; reflexivity
    | apply returns_bind; [|intros ?; cbv beta]
    | apply returns_try; [no_exit|intros ?; cbv beta]
    | match goal with |- returns (if ?b then _ else _) => destruct b end
    | progress unfold log ].

Section ScriptTotality.
Context {H : Type}.
Variable h : Host H.
Implicit Types (w : World H).

Lemma returns_attempt_install : returns (attempt_install_print_addon h).
Proof.
  unfold attempt_install_print_addon, download_and_extract. always_returns.
Qed.

Lemma returns_enable : returns (enable_print_addon h).
Proof.
  unfold enable_print_addon, try_enable. apply returns_try.
  - no_exit.
  - intros e. always_returns.
Qed.

Lemma returns_choose_addon a : returns (choose_addon h a).
Proof.
  unfold choose_addon. destruct (negb (arg_force_basic a)); [|apply returns_ret].
  apply returns_bind; [apply returns_enable|]. intros u. always_returns.
Qed.

Lemma returns_basic_repair obj : returns (basic_mesh_repair h obj).
Proof. intros w. exists tt. apply basic_mesh_repair_run. Qed.

Lemma returns_repair_stage use obj : returns (repair_stage h use obj).
Proof.
  unfold repair_stage. destruct use; [|apply returns_basic_repair].
  apply returns_try; [no_exit|].
  intros e. apply returns_bind; [always_returns|].
  intros _. apply returns_basic_repair.
Qed.

Lemma never_exits_repair_stl i o use sfx : never_exits (repair_stl h i o use sfx).
Proof.
  unfold repair_stl, load_and_repair, export_stage, imported_object,
    append_suffix.
  no_exit; try apply returns_never_exits, returns_repair_stage.
Qed.

End ScriptTotality.

(** ** The repair stage *)

Section RepairStage.
Context {H : Type}.
Variable h : Host H.
Implicit Types (w : World H) (f : event -> bool).

Lemma try_except_ret {A} (m : M H A) (hd : pyexn -> M H A) w a :
  outcome (m w) = Ret a -> try_except m hd w = m w.
Proof. intros E. unfold try_except. rewrite E. reflexivity. Qed.

(** With the add-on in use the handler of the [try] never runs: the two
    guarded calls cannot raise. *)
Lemma repair_stage_addon_run obj w :
  repair_stage h true obj w =
    (log "INFO" "Running 3D Print add-on checks" ;;
     safe_call h "mesh.print3d_check_all" [] ;;
     safe_call h "mesh.print3d_clean_non_manifold" [] ;;
     ret tt) w.
Proof.
  unfold repair_stage.
  assert (R : returns (H:=H)
                (log "INFO" "Running 3D Print add-on checks" ;;
                 safe_call h "mesh.print3d_check_all" [] ;;
                 safe_call h "mesh.print3d_clean_non_manifold" [] ;;
                 ret tt)) by always_returns.
  destruct (R w) as [a Ea]. apply (try_except_ret _ _ w a Ea).
Qed.

Lemma silent_repair_stage_addon f obj :
  f (EvLog "INFO" "Running 3D Print add-on checks") = false ->
  (forall st, f (EvOp "mesh.print3d_check_all" [] st) = false) ->
  (forall st, f (EvOp "mesh.print3d_clean_non_manifold" [] st) = false) ->
  (forall msg, f (EvLog "DEBUG" msg) = false) ->
  silent f (repair_stage h true obj).
Proof.
  intros H1 H2 H3 H4 w. rewrite repair_stage_addon_run.
  revert w. change (silent f
    (log "INFO" "Running 3D Print add-on checks" ;;
     safe_call h "mesh.print3d_check_all" [] ;;
     safe_call h "mesh.print3d_clean_non_manifold" [] ;;
     ret tt)).
  apply silent_bind; [apply silent_emit, H1|]. intros _.
  apply silent_bind; [apply silent_safe_call; auto|]. intros _.
  apply silent_bind; [apply silent_safe_call; auto|]. intros _.
  apply silent_ret.
Qed.

End RepairStage.

(** [silent] for a function that contains the repair stage. *)
Ltac silence_script :=
  repeat first
    [ match goal with
      | |- silent _ (repair_stage _ true _) =>
          apply silent_repair_stage_addon; intros; reflexivity
      | |- silent _ (repair_stage _ false _) =>
          unfold repair_stage, basic_mesh_repair
      | |- silent _ (repair_stage _ ?use _) => is_var use; destruct use
      end
    | apply silent_ret | apply silent_raise | apply silent_exit
    | apply silent_get | apply silent_modify | apply silent_host
    | apply silent_lift
    | apply silent_emit; reflexivity
    | apply silent_safe_call; intros; reflexivity
    | apply silent_call_op; intros; reflexivity
    | apply silent_extract; intros; reflexivity
    | match goal with
      | |- silent _ (bind _ _) => apply silent_bind; [|intros ?; cbv beta]
      | |- silent _ (try_except _ _) => apply silent_try; [|intros ?; cbv beta]
      | |- silent _ (with_cleanup _ _) => apply silent_cleanup
      | |- silent _ (if ?b then _ else _) => destruct b
      | |- silent _ (match ?x with _ => _ end) => destruct x
      end
    | progress unfold log, repair_stl, load_and_repair, export_stage,
        imported_object, append_suffix, guarded_repair, choose_addon,
        enable_print_addon, try_enable, attempt_install_print_addon,
        download_and_extract ].

Section AddonPath.
Context {H : Type}.
Variable h : Host H.

(** With [use_print_addon] set, [repair_stl] never reaches the generic
    repair: neither its notice nor any of its operators shows in the trace. *)
Lemma addon_path_never_logs_basic i o sfx :
  silent (is_log "INFO" "Applying basic mesh repair") (repair_stl h i o true sfx).
Proof. silence_script. Qed.

Lemma addon_path_skips_generic_ops i o sfx :
  silent is_generic_op (repair_stl h i o true sfx).
Proof. silence_script. Qed.

(** Without it, no operator of the add-on is called. *)
Lemma basic_path_skips_print3d i o sfx :
  silent is_print3d_op (repair_stl h i o false sfx).
Proof. silence_script. Qed.

End AddonPath.

(** C3.  The add-on is enabled but both of its operators are missing: the
    run succeeds, both calls are recorded as missing, and the generic repair
    is not run -- the mesh is exported unrepaired.  The same happens when
    both operators raise. *)
Theorem print_addon_failure_skips_repair :
  let run c :=
    repair_stl (demo_host c) (parse "parts/gear.stl")
      (parse "parts/gear_fixed.stl") true "_fixed"
      (empty_scene ["parts/gear.stl"]) in
  let missing := run broken_addon_config in
  let raising :=
    run (mkConfig ImportSelects Working Working Raising (Some (true, true))
           Working true sample_archive) in
  outcome missing = Ret (parse "parts/gear_fixed.stl")
  /\ status_of "mesh.print3d_check_all" (events missing) = Some OpMissing
  /\ status_of "mesh.print3d_clean_non_manifold" (events missing) = Some OpMissing
  /\ ran_basic_repair (events missing) = false
  /\ existsb is_generic_op (events missing) = false
  /\ outcome raising = Ret (parse "parts/gear_fixed.stl")
  /\ op_failed "mesh.print3d_check_all" (events raising) = true
  /\ op_failed "mesh.print3d_clean_non_manifold" (events raising) = true
  /\ ran_basic_repair (events raising) = false
  /\ existsb is_generic_op (events raising) = false.
Proof. vm_compute. repeat split; reflexivity. Qed.

(** ** [repair_stl], stage by stage *)

Section RepairStl.
Context {H : Type}.
Variable h : Host H.
Implicit Types (w : World H) (f : event -> bool).

Lemma append_suffix_run obj sfx w :
  append_suffix obj sfx w =
    mkRes (Ret tt)
      (if String.eqb sfx "" then w
       else with_name_of obj (name_of w obj ++ sfx)%string w)
      [].
Proof. unfold append_suffix. destruct (String.eqb sfx ""); reflexivity. Qed.

(** The export block: the object is renamed to the stem of the output, the
    exporter is called, and on success the name the object then has gives the
    reported file before the old name is put back. *)
Lemma export_stage_run out obj w :
  exists st w' msgs,
    let evs := EvOp "wm.stl_export" (export_kwargs (parent out)) st
               :: map (EvLog "DEBUG") msgs in
    let final := truediv (parent out) (name_of w' obj ++ ".stl")%string in
    safe_call h "wm.stl_export" (export_kwargs (parent out))
      (with_name_of obj (stem out) w)
    = mkRes (Ret (is_done st)) w' evs
    /\ export_stage h out obj w =
       if is_done st
       then mkRes (Ret final) (with_name_of obj (name_of w obj) w')
              (evs ++ [EvLog "INFO" ("Wrote " ++ to_str final)%string])
       else mkRes (Raise export_failed) w' evs.
Proof.
  destruct (safe_call_shape h "wm.stl_export" (export_kwargs (parent out))
              (with_name_of obj (stem out) w) eq_refl) as (st & w' & msgs & E).
  exists st, w', msgs. cbv zeta. split; [exact E|].
  unfold export_stage. plain_step. plain_step.
  rewrite (bind_run_eq _ _ _ _ _ _ E). cbv beta.
  destruct (is_done st); cbn [negb].
  - repeat plain_step. unfold log, emit, ret. simpl. reflexivity.
  - simpl. rewrite app_nil_r. reflexivity.
Qed.

End RepairStl.

Lemma existsb_skip_logs (f : event -> bool) msgs rest :
  (forall msg, f (EvLog "DEBUG" msg) = false) ->
  existsb f (map (EvLog "DEBUG") msgs ++ rest) = existsb f rest.
Proof. intros Hf. rewrite existsb_app, existsb_debug_logs; auto. Qed.

(** Evaluate a trace predicate on an explicit trace. *)
Ltac trace_norm :=
  unfold ran_basic_repair, op_failed, op_done, attempted, logged;
  repeat (cbn [existsb app];
          rewrite ?existsb_skip_logs by (intros; reflexivity));
  rewrite ?existsb_app;
  rewrite ?existsb_debug_logs by (intros; reflexivity);
  cbn [existsb app is_op_failed is_op_done is_op is_log is_level is_done
       is_fetch String.eqb Ascii.eqb Bool.eqb andb orb negb];
  rewrite ?orb_false_r.

Section RepairCases.
Context {H : Type}.
Variable h : Host H.
Implicit Types (w : World H) (f : event -> bool).

Lemma basic_repair_logs_notice obj w :
  ran_basic_repair (events (basic_mesh_repair h obj w)) = true.
Proof. unfold basic_mesh_repair. plain_step. reflexivity. Qed.

Lemma repair_stage_basic_notice obj w :
  ran_basic_repair (events (repair_stage h false obj w)) = true.
Proof. apply basic_repair_logs_notice. Qed.

(** What can become of the stages before the export. *)
Lemma load_and_repair_cases i use sfx w :
  let r := load_and_repair h i use sfx w in
  match outcome r with
  | Ret obj =>
      op_failed "wm.stl_import" (events r) = false
      /\ attempted "object.origin_set" (events r) = true
      /\ (use = false -> ran_basic_repair (events r) = true)
  | Raise e =>
      (e = import_failed /\ op_failed "wm.stl_import" (events r) = true)
      \/ (e = no_object /\ import_left_nothing r)
  | Exit _ => False
  end.
Proof.
  cbv zeta. unfold load_and_repair.
  safe_step. safe_step. safe_step.
  destruct st1 as [|e|]; cbn [is_done negb].
  - cbn [raise outcome events]. left. split; [reflexivity|].
    trace_norm. rewrite ?orb_true_r. reflexivity.
  - cbn [raise outcome events]. left. split; [reflexivity|].
    trace_norm. rewrite ?orb_true_r. reflexivity.
  - unfold imported_object. rewrite bind_assoc. plain_step.
    destruct (active w2) as [obj|] eqn:Ha; [|destruct (selected w2) as [|obj sel] eqn:Hs].
    + plain_step. safe_step. repeat plain_step.
      rewrite (bind_run_eq _ _ _ _ _ _ (append_suffix_run obj sfx _)). cbv beta.
      match goal with |- context [bind (repair_stage h use obj) ?k ?w'] =>
        destruct (returns_repair_stage h use obj w') as [[] Er];
        rewrite (bind_ret_run _ k w' _ Er)
      end.
      cbn [outcome world events ret].
      match type of Er with outcome (repair_stage h use obj ?wr) = _ =>
        generalize dependent wr end.
      intros wr Er.
      assert (S1 : silent (is_op_failed "wm.stl_import") (repair_stage h use obj))
        by silence_script.
      split; [|split].
      * trace_norm. rewrite (S1 wr). reflexivity.
      * trace_norm. rewrite ?orb_true_r. reflexivity.
      * intros ->.
        pose proof (repair_stage_basic_notice obj wr) as B.
        unfold ran_basic_repair, logged in B.
        trace_norm. rewrite B. rewrite ?orb_true_r. reflexivity.
    + cbn [raise bind outcome world events]. right. split; [reflexivity|].
      unfold import_left_nothing. cbn [world events].
      repeat split; auto; trace_norm; reflexivity.
    + plain_step. safe_step. repeat plain_step.
      rewrite (bind_run_eq _ _ _ _ _ _ (append_suffix_run obj sfx _)). cbv beta.
      match goal with |- context [bind (repair_stage h use obj) ?k ?w'] =>
        destruct (returns_repair_stage h use obj w') as [[] Er];
        rewrite (bind_ret_run _ k w' _ Er)
      end.
      cbn [outcome world events ret].
      match type of Er with outcome (repair_stage h use obj ?wr) = _ =>
        generalize dependent wr end.
      intros wr Er.
      assert (S1 : silent (is_op_failed "wm.stl_import") (repair_stage h use obj))
        by silence_script.
      split; [|split].
      * trace_norm. rewrite (S1 wr). reflexivity.
      * trace_norm. rewrite ?orb_true_r. reflexivity.
      * intros ->.
        pose proof (repair_stage_basic_notice obj wr) as B.
        unfold ran_basic_repair, logged in B.
        trace_norm. rewrite B. rewrite ?orb_true_r. reflexivity.
Qed.

End RepairCases.

Section MainRun.
Context {H : Type}.
Variable h : Host H.
Implicit Types (w : World H) (f : event -> bool).

Lemma res_outcome {A} (o : Outcome A) w (evs : list event) :
  outcome (mkRes o w evs) = o.
Proof. reflexivity. Qed.

Lemma res_world {A} (o : Outcome A) w (evs : list event) :
  world (mkRes o w evs) = w.
Proof. reflexivity. Qed.

Lemma res_events {A} (o : Outcome A) w (evs : list event) :
  events (mkRes o w evs) = evs.
Proof. reflexivity. Qed.

Lemma bind_ret_outcome {A B} (m : M H A) (k : A -> M H B) w a :
  outcome (m w) = Ret a ->
  outcome (bind m k w) = outcome (k a (world (m w))).
Proof. intros E. rewrite (bind_ret_run _ _ _ _ E). reflexivity. Qed.

Lemma bind_ret_world {A B} (m : M H A) (k : A -> M H B) w a :
  outcome (m w) = Ret a ->
  world (bind m k w) = world (k a (world (m w))).
Proof. intros E. rewrite (bind_ret_run _ _ _ _ E). reflexivity. Qed.

Lemma bind_ret_events {A B} (m : M H A) (k : A -> M H B) w a :
  outcome (m w) = Ret a ->
  events (bind m k w) = events (m w) ++ events (k a (world (m w))).
Proof. intros E. rewrite (bind_ret_run _ _ _ _ E). reflexivity. Qed.

Lemma bind_raise_outcome {A B} (m : M H A) (k : A -> M H B) w e :
  outcome (m w) = Raise e -> outcome (bind m k w) = Raise e.
Proof. intros E. rewrite (bind_raise_run _ _ _ _ E). reflexivity. Qed.

Lemma bind_raise_world {A B} (m : M H A) (k : A -> M H B) w e :
  outcome (m w) = Raise e -> world (bind m k w) = world (m w).
Proof. intros E. rewrite (bind_raise_run _ _ _ _ E). reflexivity. Qed.

Lemma bind_raise_events {A B} (m : M H A) (k : A -> M H B) w e :
  outcome (m w) = Raise e -> events (bind m k w) = events (m w).
Proof. intros E. rewrite (bind_raise_run _ _ _ _ E). reflexivity. Qed.

Lemma export_stage_cases o obj w :
  match outcome (export_stage h o obj w) with
  | Ret _ => op_failed "wm.stl_export" (events (export_stage h o obj w)) = false
  | Raise e =>
      e = export_failed
      /\ op_failed "wm.stl_export" (events (export_stage h o obj w)) = true
  | Exit _ => False
  end.
Proof.
  destruct (export_stage_run h o obj w) as (st & w' & msgs & _ & Ee).
  cbv zeta in Ee. rewrite Ee. clear Ee.
  destruct st as [|e|]; cbn [is_done outcome events].
  - split; [reflexivity|]. trace_norm. reflexivity.
  - split; [reflexivity|]. trace_norm. reflexivity.
  - trace_norm. reflexivity.
Qed.

(** What can become of [repair_stl]. *)
Lemma repair_stl_cases i o use sfx w :
  let r := repair_stl h i o use sfx w in
  match outcome r with
  | Ret _ =>
      op_failed "wm.stl_import" (events r) = false
      /\ op_failed "wm.stl_export" (events r) = false
      /\ attempted "object.origin_set" (events r) = true
      /\ (use = false -> ran_basic_repair (events r) = true)
  | Raise e =>
      (e = import_failed /\ op_failed "wm.stl_import" (events r) = true)
      \/ (e = no_object /\ import_left_nothing r)
      \/ (e = export_failed /\ op_failed "wm.stl_export" (events r) = true
          /\ (use = false -> ran_basic_repair (events r) = true))
  | Exit _ => False
  end.
Proof.
  cbv zeta. unfold repair_stl, import_left_nothing.
  pose proof (load_and_repair_cases h i use sfx w) as L. cbv zeta in L.
  assert (S1 : silent (is_op_failed "wm.stl_export") (load_and_repair h i use sfx))
    by silence_script.
  destruct (outcome (load_and_repair h i use sfx w)) as [obj|e|c] eqn:E.
  - rewrite (bind_ret_outcome _ _ _ _ E), !(bind_ret_events _ _ _ _ E).
    destruct L as (L1 & L2 & L3).
    pose proof (export_stage_cases o obj (world (load_and_repair h i use sfx w))) as X.
    assert (S2 : silent (is_op_failed "wm.stl_import") (export_stage h o obj))
      by silence_script.
    specialize (S1 w). specialize (S2 (world (load_and_repair h i use sfx w))).
    unfold op_failed, attempted, ran_basic_repair, logged in *.
    rewrite !existsb_app.
    destruct (outcome (export_stage h o obj (world (load_and_repair h i use sfx w))))
      as [f|e|c].
    + rewrite L1, L2, S1, S2, X. repeat split.
      intros U. rewrite (L3 U). reflexivity.
    + right. right. destruct X as [-> X]. rewrite X. split; [reflexivity|].
      split; [apply orb_true_r|]. intros U. rewrite (L3 U). reflexivity.
    + destruct X.
  - rewrite (bind_raise_outcome _ _ _ _ E), !(bind_raise_events _ _ _ _ E),
      !(bind_raise_world _ _ _ _ E).
    unfold import_left_nothing in L.
    destruct L as [[-> L]|[-> L]]; [left|right; left]; split; auto.
  - destruct L.
Qed.

Lemma guarded_repair_run a out use w :
  guarded_repair h a out use w =
    let rr := repair_stl h (input a) out use (main_suffix a) w in
    match outcome rr with
    | Ret final_file =>
        mkRes (Ret tt) (world rr)
          (events rr
           ++ [EvLog "INFO" ("Repaired file saved: " ++ to_str final_file)%string])
    | Raise e =>
        mkRes (Exit 2) (world rr)
          (events rr ++ [EvLog "ERROR" ("Repair failed: " ++ exn_str e)%string])
    | Exit c => mkRes (Exit c) (world rr) (events rr)
    end.
Proof.
  cbv zeta. unfold guarded_repair, try_except, bind.
  destruct (outcome (repair_stl h (input a) out use (main_suffix a) w));
    reflexivity.
Qed.

Lemma bind_cases {A B} (m : M H A) (k : A -> M H B) w :
  bind m k w =
    match outcome (m w) with
    | Ret a =>
        mkRes (outcome (k a (world (m w)))) (world (k a (world (m w))))
          (events (m w) ++ events (k a (world (m w))))
    | Raise e => mkRes (Raise e) (world (m w)) (events (m w))
    | Exit c => mkRes (Exit c) (world (m w)) (events (m w))
    end.
Proof. reflexivity. Qed.

Lemma main_run a w :
  main h a w =
    match path_exists h w (to_str (input a)) with
    | ExistsRaises k msg => mkRes (Raise (os_error k msg)) w []
    | ExistsIs false =>
      mkRes (Exit 1) w
        [EvLog "ERROR" ("Input file does not exist: " ++ to_str (input a))%string]
    | ExistsIs true =>
      match main_output a with
      | PyErr e => mkRes (Raise e) w []
      | PyOk out =>
          let rc := choose_addon h a w in
          match outcome rc with
          | Ret use_addon =>
              let rg := guarded_repair h a out use_addon (world rc) in
              mkRes (outcome rg) (world rg)
                (EvLog "INFO" ("Repairing " ++ to_str (input a))%string
                 :: events rc ++ events rg)
          | Raise e =>
              mkRes (Raise e) (world rc)
                (EvLog "INFO" ("Repairing " ++ to_str (input a))%string :: events rc)
          | Exit c =>
              mkRes (Exit c) (world rc)
                (EvLog "INFO" ("Repairing " ++ to_str (input a))%string :: events rc)
          end
      end
    end.
Proof.
  unfold main. rewrite bind_get.
  destruct (path_exists h w (to_str (input a))) as [[|]|k msg];
    [|reflexivity|reflexivity].
  destruct (main_output a) as [out|e]; [|reflexivity].
  cbn [lift_pyres]. rewrite bind_ret. unfold log. rewrite bind_emit.
  rewrite bind_cases. cbv zeta.
  destruct (outcome (choose_addon h a w));
    rewrite ?res_outcome, ?res_world, ?res_events; reflexivity.
Qed.

End MainRun.

(** ** Exit codes *)

(** C1.  [import bpy] fails: exit code 1.  Otherwise, the input does not
    exist: exit code 1; and when it exists and the output path is derived,
    the add-on phase returns some [use_addon], and the exit code is 0 when the
    call of [repair_stl] returns and 2 when it raises. *)
Theorem exit_codes {H : Type} (s : Startup H) (a : Args) (w : World H) :
  match s with
  | BpyMissing _ => exit_status (outcome (run_cli s a w)) = 1%Z
  | BpyLoaded h =>
      (path_exists h w (to_str (input a)) = ExistsIs false ->
       exit_status (outcome (run_cli s a w)) = 1%Z)
      /\ (forall out,
            path_exists h w (to_str (input a)) = ExistsIs true ->
            main_output a = PyOk out ->
            exists use_addon,
              outcome (choose_addon h a w) = Ret use_addon
              /\ match outcome (repair_stl h (input a) out use_addon (main_suffix a)
                                  (world (choose_addon h a w))) with
                 | Ret _ => exit_status (outcome (run_cli s a w)) = 0%Z
                 | Raise _ => exit_status (outcome (run_cli s a w)) = 2%Z
                 | Exit _ => False
                 end)
  end.
Proof.
  destruct s as [e|h]; [reflexivity|].
  cbn [run_cli]. rewrite main_run. split.
  - intros E. rewrite E. reflexivity.
  - intros out E Ho. rewrite E, Ho. cbn [negb]. cbv zeta.
    destruct (returns_choose_addon h a w) as [use Eu].
    exists use. split; [exact Eu|]. rewrite Eu.
    rewrite guarded_repair_run. cbv zeta.
    pose proof (never_exits_repair_stl h (input a) out use (main_suffix a)
                  (world (choose_addon h a w))) as NE.
    destruct (outcome (repair_stl h (input a) out use (main_suffix a)
                         (world (choose_addon h a w)))) as [f|e|c];
      try reflexivity.
    exact (NE c eq_refl).
Qed.

Example exit_code_success :
  exit_status (outcome (run_cli (BpyLoaded (demo_host full_config))
                          (default_args "parts/gear.stl")
                          (empty_scene ["parts/gear.stl"]))) = 0%Z.
Proof. vm_compute. reflexivity. Qed.

Example exit_code_missing_input :
  exit_status (outcome (run_cli (BpyLoaded (demo_host full_config))
                          (default_args "parts/gear.stl")
                          (empty_scene []))) = 1%Z.
Proof. vm_compute. reflexivity. Qed.

Example exit_code_no_bpy :
  exit_status (outcome (run_cli (H:=Disk)
                          (BpyMissing (PyExn "ModuleNotFoundError"
                                         "No module named 'bpy'"))
                          (default_args "parts/gear.stl")
                          (empty_scene ["parts/gear.stl"]))) = 1%Z.
Proof. vm_compute. reflexivity. Qed.

Example exit_code_import_raises :
  exit_status (outcome (run_cli
                          (BpyLoaded (demo_host
                             (mkConfig ImportRaises Working Working Working
                                (Some (true, true)) Working true [])))
                          (default_args "parts/gear.stl")
                          (empty_scene ["parts/gear.stl"]))) = 2%Z.
Proof. vm_compute. reflexivity. Qed.

Example exit_code_export_missing :
  exit_status (outcome (run_cli
                          (BpyLoaded (demo_host
                             (mkConfig ImportSelects Absent Working Working
                                (Some (true, true)) Working true [])))
                          (default_args "parts/gear.stl")
                          (empty_scene ["parts/gear.stl"]))) = 2%Z.
Proof. vm_compute. reflexivity. Qed.

(** ** Hard failures *)

(** The importer returns without raising and leaves neither an active nor a
    selected object: the input exists, no operator failed, nothing was
    exported, and the exit code is 2. *)
Lemma empty_import_run :
  let h := demo_host empty_import_config in
  let a := default_args "parts/gear.stl" in
  let w := empty_scene ["parts/gear.stl"] in
  let r := main h a w in
  exit_status (outcome r) = 2%Z
  /\ path_exists h w (to_str (input a)) = ExistsIs true
  /\ op_done "wm.stl_import" (events r) = true
  /\ op_failed "wm.stl_import" (events r) = false
  /\ attempted "wm.stl_export" (events r) = false
  /\ op_failed "wm.stl_export" (events r) = false
  /\ logged "ERROR" "Repair failed: list index out of range" (events r) = true.
Proof. vm_compute. repeat split; reflexivity. Qed.

(** C2, counterexample.  The run of [empty_import_run] exits with 2 in none
    of the three cases. *)
Lemma three_hard_failures_refuted : ~ only_three_hard_failures.
Proof.
  intros C.
  specialize (C Disk (demo_host empty_import_config)
                (default_args "parts/gear.stl") (empty_scene ["parts/gear.stl"])).
  destruct empty_import_run as (E & P & _ & I & _ & X & _).
  cbv zeta in *. rewrite E, I, X, P in C.
  destruct C as [C|[C|C]]; try discriminate.
  exact (C eq_refl).
Qed.

(** A second one: [stl-repair .] names an existing directory whose path has
    no final component; [with_stem] raises [ValueError] outside any [try]. *)
Example empty_name_run :
  let r := main (demo_host full_config) (default_args ".") (empty_scene ["."]) in
  outcome r = Raise (ValueError "path has an empty name")
  /\ exit_status (outcome r) = 1%Z /\ events r = [].
Proof. vm_compute. repeat split; reflexivity. Qed.

Lemma with_name_error (p : Path) (n : string) (e : pyexn) :
  with_name p n = PyErr e -> exn_class e = "ValueError"%string.
Proof.
  unfold with_name. destruct (String.eqb (name p) "").
  - intros E. injection E as <-. reflexivity.
  - destruct (invalid_name n); [|discriminate].
    intros E. injection E as <-. reflexivity.
Qed.

Lemma with_suffix_error (p : Path) (s : string) (e : pyexn) :
  with_suffix p s = PyErr e -> exn_class e = "ValueError"%string.
Proof.
  unfold with_suffix.
  repeat match goal with
         | |- context [if ?b then _ else _] => destruct b
         end; intros E; try discriminate; injection E as <-; reflexivity.
Qed.

Lemma main_output_error (a : Args) (e : pyexn) :
  main_output a = PyErr e -> exn_class e = "ValueError"%string.
Proof.
  unfold main_output.
  destruct (output a) as [o|].
  - destruct (negb _); [apply with_suffix_error | discriminate].
  - unfold with_stem. destruct (with_name (input a) _) as [c|e'] eqn:Ec.
    + destruct (negb _); [apply with_suffix_error | discriminate].
    + intros E. injection E as <-. exact (with_name_error _ _ _ Ec).
Qed.

Section HardFailures.
Context {H : Type}.
Variable h : Host H.

(** The add-on phase calls no scene operator. *)
Lemma choose_addon_calls_only_enable a p :
  String.eqb "preferences.addon_enable" p = false ->
  silent (is_op p) (choose_addon h a).
Proof.
  intros Hp.
  assert (Hop : forall kw st,
            is_op p (EvOp "preferences.addon_enable" kw st) = false)
    by (intros; exact Hp).
  unfold choose_addon, enable_print_addon, try_enable,
    attempt_install_print_addon, download_and_extract.
  repeat first
    [ apply silent_call_op; intros; apply Hop
    | apply silent_ret | apply silent_raise | apply silent_get
    | apply silent_host | apply silent_emit; reflexivity
    | apply silent_extract; intros; reflexivity
    | match goal with
      | |- silent _ (bind _ _) => apply silent_bind; [|intros ?; cbv beta]
      | |- silent _ (try_except _ _) => apply silent_try; [|intros ?; cbv beta]
      | |- silent _ (with_cleanup _ _) => apply silent_cleanup
      | |- silent _ (if ?b then _ else _) => destruct b
      end
    | progress unfold log ].
Qed.

Lemma is_op_failed_le p ev : is_op_failed p ev = true -> is_op p ev = true.
Proof.
  destruct ev; simpl; try discriminate.
  intros E. apply andb_true_iff in E. tauto.
Qed.

Lemma silent_weaken {A} (f g : event -> bool) (m : M H A) :
  (forall ev, g ev = true -> f ev = true) -> silent f m -> silent g m.
Proof.
  intros Hfg Hs w. specialize (Hs w).
  induction (events (m w)) as [|ev evs IH]; [reflexivity|].
  simpl in *. apply orb_false_iff in Hs. destruct Hs as [E1 E2].
  rewrite (IH E2), orb_false_r.
  destruct (g ev) eqn:G; [|reflexivity]. rewrite (Hfg ev G) in E1. discriminate.
Qed.

End HardFailures.

(** C2, amended.  A run of [main] ends with a non-zero exit code exactly
    when [exists()] returns [False] for the input (logged, exit code 1), or
    [exists()] raises an [OSError] (uncaught, status 1), or deriving the
    output path raises [ValueError] (uncaught, status 1), or the import
    operator is missing or raises (2), or the import operator returns but
    leaves neither an active nor a selected object (2), or the export
    operator is missing or raises (2). *)
Theorem nonzero_exit_causes {H : Type} (h : Host H) (a : Args) (w : World H) :
  let r := main h a w in
  let seen := path_exists h w (to_str (input a)) in
  (exit_status (outcome r) <> 0%Z
   <-> (seen = ExistsIs false
        \/ (exists k msg, seen = ExistsRaises k msg)
        \/ (seen = ExistsIs true /\ exists e, main_output a = PyErr e)
        \/ op_failed "wm.stl_import" (events r) = true
        \/ import_left_nothing r
        \/ op_failed "wm.stl_export" (events r) = true))
  /\ (seen = ExistsIs false ->
      outcome r = Exit 1 /\ exit_status (outcome r) = 1%Z)
  /\ (forall k msg, seen = ExistsRaises k msg ->
      outcome r = Raise (os_error k msg) /\ exit_status (outcome r) = 1%Z)
  /\ (forall e, seen = ExistsIs true -> main_output a = PyErr e ->
      outcome r = Raise e /\ exn_class e = "ValueError"%string
      /\ exit_status (outcome r) = 1%Z)
  /\ (op_failed "wm.stl_import" (events r) = true
      \/ import_left_nothing r
      \/ op_failed "wm.stl_export" (events r) = true ->
      outcome r = Exit 2 /\ exit_status (outcome r) = 2%Z).
Proof.
  cbv zeta. unfold import_left_nothing. rewrite main_run.
  destruct (path_exists h w (to_str (input a))) as [[|]|k0 msg0] eqn:E.
  2:{ rewrite !res_outcome, !res_events. cbn [exit_status].
      unfold op_failed, op_done. cbn [existsb is_op_failed is_op_done orb].
      split; [split; [auto | intros _; discriminate]|].
      split; [auto|]. split; [intros k m C; discriminate|].
      split; [intros e C; discriminate|].
      intros [C|[(C & _)|C]]; discriminate. }
  2:{ rewrite !res_outcome, !res_events. cbn [exit_status].
      unfold op_failed, op_done. cbn [existsb].
      split; [split; [eauto | intros _; discriminate]|].
      split; [intros C; discriminate|].
      split; [intros k m C; injection C as <- <-; auto|].
      split; [intros e C; discriminate|].
      intros [C|[(C & _)|C]]; discriminate. }
  destruct (main_output a) as [out|e0] eqn:Ho.
  2:{ rewrite !res_outcome, !res_events. cbn [exit_status].
      unfold op_failed, op_done. cbn [existsb].
      split; [split; [eauto 6 | intros _; discriminate]|].
      split; [intros C; discriminate|].
      split; [intros k m C; discriminate|].
      split; [intros e _ C; injection C as <-;
              split; [reflexivity|];
              split; [exact (main_output_error a e0 Ho) | reflexivity]|].
      intros [C|[(C & _)|C]]; discriminate. }
  cbv zeta.
  destruct (returns_choose_addon h a w) as [use Eu]. rewrite Eu.
  rewrite guarded_repair_run. cbv zeta.
  pose proof (repair_stl_cases h (input a) out use (main_suffix a)
                (world (choose_addon h a w))) as R. cbv zeta in R.
  assert (Si : existsb (is_op_failed "wm.stl_import")
                 (events (choose_addon h a w)) = false).
  { apply (silent_weaken (is_op "wm.stl_import")).
    - apply is_op_failed_le.
    - apply choose_addon_calls_only_enable. reflexivity. }
  assert (Sx : existsb (is_op_failed "wm.stl_export")
                 (events (choose_addon h a w)) = false).
  { apply (silent_weaken (is_op "wm.stl_export")).
    - apply is_op_failed_le.
    - apply choose_addon_calls_only_enable. reflexivity. }
  assert (So : existsb (is_op "object.origin_set")
                 (events (choose_addon h a w)) = false)
    by (apply choose_addon_calls_only_enable; reflexivity).
  unfold import_left_nothing in *.
  destruct (outcome (repair_stl h (input a) out use (main_suffix a)
                       (world (choose_addon h a w)))) as [f|e|c] eqn:Er;
    rewrite ?res_outcome, ?res_world, ?res_events; cbn [exit_status];
    unfold op_failed, op_done, attempted in *;
    cbn [existsb is_op_failed is_op is_op_done]; rewrite !existsb_app;
    cbn [existsb is_op_failed is_op is_op_done]; rewrite ?orb_false_r.
  - destruct R as (R1 & R2 & R3 & _). rewrite Si, Sx, So, R1, R2, R3.
    cbn [orb].
    split; [split; [intros C; exfalso; apply C; reflexivity|]|].
    + intros [C|[(k & m & C)|[(_ & e & C)|[C|[(_ & C & _)|C]]]]]; discriminate.
    + split; [intros C; discriminate|].
      split; [intros k m C; discriminate|].
      split; [intros e _ C; discriminate|].
      intros [C|[(_ & C & _)|C]]; discriminate.
  - split; [split; [|intros _; discriminate]|].
    + intros _. right. right. right.
      destruct R as [[_ R]|[[_ R]|[_ [R _]]]].
      * left. rewrite R. apply orb_true_r.
      * right. left. destruct R as (R1 & R2 & R3 & R4).
        rewrite R1, R2, So, orb_true_r. auto.
      * right. right. rewrite R. apply orb_true_r.
    + split; [intros C; discriminate|].
      split; [intros k m C; discriminate|].
      split; [intros e' _ C; discriminate|].
      intros _. split; reflexivity.
  - destruct R.
Qed.

Example permission_denied_run :
  let r := main (demo_host full_config) (default_args "/root/gear.stl")
             (empty_scene ["/root/gear.stl"]) in
  outcome r
  = Raise (PyExn "PermissionError"
             "[Errno 13] Permission denied: '/root/gear.stl'")
  /\ exit_status (outcome r) = 1%Z /\ events r = [].
Proof. vm_compute. repeat split; reflexivity. Qed.

(** ** Installing the add-on *)

Section Install.
Context {H : Type}.
Variable h : Host H.
Implicit Types (w : World H) (f : event -> bool).

Lemma fetches_le_bind_l {A B} n (m : M H A) (k : A -> M H B) :
  silent is_fetch m -> (forall a, fetches_le n (k a)) -> fetches_le n (bind m k).
Proof.
  intros Hm Hk. change n with (0 + n).
  apply fetches_le_bind; [apply silent_no_fetch, Hm | exact Hk].
Qed.

Lemma fetches_le_bind_r {A B} n (m : M H A) (k : A -> M H B) :
  fetches_le n m -> (forall a, silent is_fetch (k a)) -> fetches_le n (bind m k).
Proof.
  intros Hm Hk. rewrite <- (Nat.add_0_r n).
  apply fetches_le_bind; [exact Hm | intros a; apply silent_no_fetch, Hk].
Qed.

Lemma fetches_le_try_r {A} n (m : M H A) (hd : pyexn -> M H A) :
  fetches_le n m -> (forall e, silent is_fetch (hd e)) ->
  fetches_le n (try_except m hd).
Proof.
  intros Hm Hh. rewrite <- (Nat.add_0_r n).
  apply fetches_le_try; [exact Hm | intros e; apply silent_no_fetch, Hh].
Qed.

Lemma fetches_le_cleanup_r {A} n (m : M H A) (cl : M H unit) :
  fetches_le n m -> silent is_fetch cl -> fetches_le n (with_cleanup m cl).
Proof.
  intros Hm Hc. rewrite <- (Nat.add_0_r n).
  apply fetches_le_cleanup; [exact Hm | apply silent_no_fetch, Hc].
Qed.

(** One installation attempt starts at most one download. *)
Lemma attempt_install_fetches_once : fetches_le 1 (attempt_install_print_addon h).
Proof.
  unfold attempt_install_print_addon.
  apply fetches_le_try_r; [|intros e; silence].
  apply fetches_le_bind_l; [silence|]. intros d.
  apply fetches_le_bind_l; [silence|]. intros w0. cbv beta.
  apply fetches_le_bind_r; [|intros _; silence].
  destruct (negb (os_path_isdir h w0 _)); [|apply silent_no_fetch_le; silence].
  apply fetches_le_bind_l; [silence|]. intros _.
  apply fetches_le_bind_l; [silence|]. intros td.
  apply fetches_le_bind_r; [|intros _; silence].
  apply fetches_le_cleanup_r; [|silence].
  unfold download_and_extract.
  apply fetches_le_bind_r; [|intros _; silence].
  intros w1. cbn. lia.
Qed.


End Install.

Section Fallback.
Context {H : Type}.
Variable h : Host H.
Implicit Types (w : World H) (f : event -> bool).

Lemma host_call_ok {A} (g : World H -> HostResult H A) w a w' :
  g w = HOk a w' -> host_call g w = mkRes (Ret a) w' [].
Proof. intros E. unfold host_call. rewrite E. reflexivity. Qed.

Lemma host_call_raise {A} (g : World H -> HostResult H A) w e w' :
  g w = HRaise e w' -> host_call g w = mkRes (Raise e) w' [].
Proof. intros E. unfold host_call. rewrite E. reflexivity. Qed.

(** The first attempt to enable the add-on returns a boolean and logs no
    install notice. *)
Lemma try_enable_shape res w :
  exists b, outcome (try_enable h res w) = Ret b
            /\ existsb (is_log "INFO" "3D Print add-on not present; attempting install")
                 (events (try_enable h res w)) = false.
Proof.
  assert (R : returns (try_enable h res))
    by (unfold try_enable; always_returns).
  assert (S : silent (is_log "INFO" "3D Print add-on not present; attempting install")
                (try_enable h res))
    by (unfold try_enable; silence).
  destruct (R w) as [b Eb]. exists b. split; [exact Eb | apply S].
Qed.

(** The ways [enable_print_addon] can go. *)
Lemma enable_run w :
  match import_addon_utils h w with
  | HRaise e w0 =>
      enable_print_addon h w =
        mkRes (Ret false) w0
          [EvLog "DEBUG" ("Add-on check failed: " ++ exn_str e)%string]
  | HOk _ w0 =>
      match addon_utils_check h addon_module w0 with
      | HRaise e w1 =>
          enable_print_addon h w =
            mkRes (Ret false) w1
              [EvLog "DEBUG" ("Add-on check failed: " ++ exn_str e)%string]
      | HOk res w1 =>
          let rt := try_enable h res w1 in
          let ra := attempt_install_print_addon h (world rt) in
          enable_print_addon h w =
            match outcome rt with
            | Ret false =>
                mkRes (outcome ra) (world ra)
                  (events rt ++ install_notice :: events ra)
            | _ => mkRes (Ret true) (world rt) (events rt)
            end
      end
  end.
Proof.
  destruct (import_addon_utils h w) as [[] w0|e w0] eqn:E0.
  2:{ unfold enable_print_addon, try_except.
      rewrite (bind_raise_run _ _ _ e); [|rewrite (host_call_raise _ _ _ _ E0); reflexivity].
      rewrite (host_call_raise _ _ _ _ E0). reflexivity. }
  destruct (addon_utils_check h addon_module w0) as [res w1|e w1] eqn:E1.
  2:{ unfold enable_print_addon, try_except.
      rewrite (bind_run_eq _ _ _ _ _ _ (host_call_ok _ _ _ _ E0)). cbv beta.
      rewrite (bind_raise_run _ _ _ e); [|rewrite (host_call_raise _ _ _ _ E1); reflexivity].
      rewrite (host_call_raise _ _ _ _ E1). reflexivity. }
  unfold enable_print_addon, try_except.
  rewrite (bind_run_eq _ _ _ _ _ _ (host_call_ok _ _ _ _ E0)). cbv beta.
  rewrite (bind_run_eq _ _ _ _ _ _ (host_call_ok _ _ _ _ E1)). cbv beta zeta.
  destruct (try_enable_shape res w1) as (b & Eb & Sb).
  rewrite (bind_ret_run _ _ _ _ Eb). rewrite Eb.
  destruct b; cbv beta iota.
  - cbn [outcome world events ret app]. rewrite !app_nil_r. reflexivity.
  - rewrite bind_emit. cbn [outcome world events app].
    destruct (returns_attempt_install h (world (try_enable h res w1))) as [b Ea].
    rewrite Ea. reflexivity.
Qed.

(** When the install notice is in its trace, [enable_print_addon] returned
    what [attempt_install_print_addon] returned. *)
Lemma enable_returns_install_result w :
  existsb (is_log "INFO" "3D Print add-on not present; attempting install")
    (events (enable_print_addon h w)) = true ->
  exists w1,
    outcome (enable_print_addon h w) = outcome (attempt_install_print_addon h w1).
Proof.
  pose proof (enable_run w) as R.
  destruct (import_addon_utils h w) as [[] w0|e w0];
    [|rewrite R; cbn; discriminate].
  destruct (addon_utils_check h addon_module w0) as [res w1|e w1];
    [|rewrite R; cbn; discriminate].
  cbv zeta in R. rewrite R.
  destruct (try_enable_shape res w1) as (b & Eb & Sb). rewrite Eb.
  destruct b; cbn [outcome events].
  - rewrite Sb. discriminate.
  - intros _. eexists. reflexivity.
Qed.

Lemma fetch_count_log level msg (evs : list event) :
  fetch_count (EvLog level msg :: evs) = fetch_count evs.
Proof. reflexivity. Qed.


End Fallback.



Lemma only_op_calls (p : string) (evs : list event) :
  existsb (is_other_op p) evs = false ->
  forallb (fun c => String.eqb (fst c) p) (op_calls evs) = true.
Proof.
  induction evs as [|ev evs IH]; [reflexivity|].
  cbn [existsb]. intros Q. apply orb_false_iff in Q. destruct Q as [Q1 Q2].
  destruct ev; cbn [op_calls forallb fst]; auto.
  rewrite (IH Q2), andb_true_r. apply negb_false_iff. exact Q1.
Qed.

Section InstallGuard.
Context {H : Type}.
Variable h : Host H.
Implicit Types (w : World H) (f : event -> bool).

Lemma loud_bind_l {A B} f (m : M H A) (k : A -> M H B) w :
  existsb f (events (m w)) = true -> existsb f (events (bind m k w)) = true.
Proof.
  intros E. rewrite bind_cases.
  destruct (outcome (m w)); rewrite res_events, ?existsb_app, E; reflexivity.
Qed.

Lemma loud_bind_r {A B} f (m : M H A) (k : A -> M H B) w a :
  outcome (m w) = Ret a ->
  existsb f (events (k a (world (m w)))) = true ->
  existsb f (events (bind m k w)) = true.
Proof.
  intros Ea E. rewrite (bind_ret_events _ _ _ _ Ea), existsb_app, E.
  apply orb_true_r.
Qed.

Lemma loud_try {A} f (m : M H A) (hd : pyexn -> M H A) w :
  existsb f (events (m w)) = true ->
  existsb f (events (try_except m hd w)) = true.
Proof.
  intros E. unfold try_except.
  destruct (outcome (m w)); rewrite ?res_events, ?existsb_app, E; reflexivity.
Qed.

(** A direct operator call leaves exactly one event, the call. *)
Lemma call_op_shape m n kw w :
  exists st o w',
    call_op h m n kw w = mkRes o w' [EvOp (m ++ "." ++ n)%string kw st].
Proof.
  unfold call_op. rewrite bind_get.
  destruct (lookup_op h w m n) as [op|].
  - unfold try_except, bind, host_call.
    destruct (op kw w) as [[] w'|e w']; cbn; eauto.
  - cbn. eauto.
Qed.

(** What remains of [attempt_install_print_addon] once the folder is there. *)
Lemma enable_tail_silent f :
  (forall l m, f (EvLog l m) = false) ->
  (forall kw st, f (EvOp "preferences.addon_enable" kw st) = false) ->
  silent f
    (host_call (invalidate_caches h) ;;
     call_op h "preferences" "addon_enable" [("module", VStr addon_module)] ;;
     log "INFO" "Enabled object_print3d_utils after install" ;;
     ret true).
Proof.
  intros Hl Ho.
  apply silent_bind; [apply silent_host|]. intros _.
  apply silent_bind; [apply silent_call_op; intros; apply Ho|]. intros _.
  apply silent_bind; [apply silent_emit, Hl|]. intros _. apply silent_ret.
Qed.

(** The run when the add-on folder exists. *)
Lemma attempt_install_present w d w1 :
  user_resource h "SCRIPTS" "addons" true w = HOk d w1 ->
  os_path_isdir h w1 (path_join d addon_module) = true ->
  attempt_install_print_addon h w =
    try_except
      (host_call (invalidate_caches h) ;;
       call_op h "preferences" "addon_enable" [("module", VStr addon_module)] ;;
       log "INFO" "Enabled object_print3d_utils after install" ;;
       ret true)
      (fun e =>
         log "WARNING" ("Automatic add-on install failed: " ++ exn_str e) ;;
         ret false)
      w1.
Proof.
  intros Eu Ed. unfold attempt_install_print_addon, try_except.
  rewrite (bind_run_eq _ _ _ _ _ _ (host_call_ok _ _ _ _ Eu)). cbv beta zeta.
  rewrite bind_get. cbv beta. rewrite Ed. cbn [negb].
  rewrite bind_ret. cbn [outcome world events app].
  destruct ((host_call (invalidate_caches h) ;;
             call_op h "preferences" "addon_enable" [("module", VStr addon_module)] ;;
             log "INFO" "Enabled object_print3d_utils after install" ;;
             ret true) w1) as [o wx ex].
  cbn [outcome world events]. destruct o; reflexivity.
Qed.

(** The run when the user add-on directory cannot be found. *)
Lemma attempt_install_no_dir w e w1 :
  user_resource h "SCRIPTS" "addons" true w = HRaise e w1 ->
  attempt_install_print_addon h w =
    mkRes (Ret false) w1
      [EvLog "WARNING" ("Automatic add-on install failed: " ++ exn_str e)%string].
Proof.
  intros Eu. unfold attempt_install_print_addon, try_except.
  rewrite (bind_raise_run _ _ _ e);
    [|rewrite (host_call_raise _ _ _ _ Eu); reflexivity].
  rewrite (host_call_raise _ _ _ _ Eu). reflexivity.
Qed.

Lemma attempt_install_present_quiet f w d w1 :
  (forall l m, f (EvLog l m) = false) ->
  (forall kw st, f (EvOp "preferences.addon_enable" kw st) = false) ->
  user_resource h "SCRIPTS" "addons" true w = HOk d w1 ->
  os_path_isdir h w1 (path_join d addon_module) = true ->
  existsb f (events (attempt_install_print_addon h w)) = false.
Proof.
  intros Hl Ho Eu Ed. rewrite (attempt_install_present w d w1 Eu Ed).
  apply silent_try.
  - apply enable_tail_silent; assumption.
  - intros e. apply silent_bind; [apply silent_emit, Hl|]. intros _.
    apply silent_ret.
Qed.

End InstallGuard.

(** C7.  [attempt_install_print_addon] touches the network or the disk only
    when the user add-on directory was found and [object_print3d_utils] is
    not a directory under it; every download is from the fixed URL and there
    is at most one.  When the folder exists there is no download, no
    unzipping and no write: the only operator called is
    [preferences.addon_enable], and it is called whenever
    [importlib.invalidate_caches] returns. *)
Theorem install_downloads_only_when_absent {H : Type} (h : Host H) (w : World H) :
  (existsb is_install_io (events (attempt_install_print_addon h w)) = true ->
   exists d w1,
     user_resource h "SCRIPTS" "addons" true w = HOk d w1
     /\ os_path_isdir h w1 (path_join d addon_module) = false)
  /\ (forall d w1,
        user_resource h "SCRIPTS" "addons" true w = HOk d w1 ->
        os_path_isdir h w1 (path_join d addon_module) = true ->
        existsb is_install_io (events (attempt_install_print_addon h w)) = false
        /\ forallb (fun c => String.eqb (fst c) "preferences.addon_enable")
             (op_calls (events (attempt_install_print_addon h w))) = true
        /\ (forall w2, invalidate_caches h w1 = HOk tt w2 ->
            attempted "preferences.addon_enable"
              (events (attempt_install_print_addon h w)) = true))
  /\ existsb is_foreign_fetch (events (attempt_install_print_addon h w)) = false
  /\ fetch_count (events (attempt_install_print_addon h w)) <= 1.
Proof.
  assert (P : forall d w1,
            user_resource h "SCRIPTS" "addons" true w = HOk d w1 ->
            os_path_isdir h w1 (path_join d addon_module) = true ->
            existsb is_install_io (events (attempt_install_print_addon h w)) = false).
  { intros d w1 Eu Ed.
    apply (attempt_install_present_quiet h is_install_io w d w1);
      [intros; reflexivity | intros; reflexivity | exact Eu | exact Ed]. }
  split; [|split; [|split]].
  - intros E.
    destruct (user_resource h "SCRIPTS" "addons" true w) as [d w1|e w1] eqn:Eu.
    + exists d, w1. split; [reflexivity|].
      destruct (os_path_isdir h w1 (path_join d addon_module)) eqn:Ed; [|reflexivity].
      rewrite (P d w1 eq_refl Ed) in E. discriminate.
    + rewrite (attempt_install_no_dir h w e w1 Eu) in E. discriminate.
  - intros d w1 Eu Ed. split; [exact (P d w1 Eu Ed)|]. split.
    + apply only_op_calls.
      apply (attempt_install_present_quiet h _ w d w1);
        [intros; reflexivity | intros; reflexivity | exact Eu | exact Ed].
    + intros w2 Ei. rewrite (attempt_install_present h w d w1 Eu Ed).
      apply loud_try.
      apply (loud_bind_r _ _ _ _ tt);
        [rewrite (host_call_ok _ _ _ _ Ei); reflexivity|].
      rewrite (host_call_ok _ _ _ _ Ei), res_world.
      apply loud_bind_l.
      destruct (call_op_shape h "preferences" "addon_enable"
                  [("module", VStr addon_module)] w2) as (st & o & w' & E).
      rewrite E. reflexivity.
  - assert (S : silent is_foreign_fetch (attempt_install_print_addon h))
      by silence_script.
    apply S.
  - apply attempt_install_fetches_once.
Qed.

(** The folder is there: nothing is downloaded and the add-on is enabled. *)
Example install_with_folder_present :
  let w := empty_scene ["/cfg/scripts/addons/object_print3d_utils"] in
  let r := attempt_install_print_addon (demo_host bare_config) w in
  outcome r = Ret true
  /\ existsb is_install_io (events r) = false
  /\ op_calls (events r)
     = [("preferences.addon_enable", [("module", VStr "object_print3d_utils")])].
Proof. vm_compute. repeat split; reflexivity. Qed.

(** The folder is missing: the archive is fetched once and its
    [object_print3d_utils] members, and only those, are written under the
    user add-on directory. *)
Example install_with_folder_absent :
  let r := attempt_install_print_addon (demo_host bare_config) (empty_scene []) in
  outcome r = Ret true
  /\ fetch_count (events r) = 1
  /\ filter is_install_io (events r)
     = [EvFetch addon_url "/tmp/td/addons.zip";
        EvUnzip "/tmp/td/addons.zip";
        EvMakedirs "/cfg/scripts/addons/object_print3d_utils/";
        EvMakedirs "/cfg/scripts/addons/object_print3d_utils";
        EvWrite "/cfg/scripts/addons/object_print3d_utils/__init__.py" "init";
        EvMakedirs "/cfg/scripts/addons/object_print3d_utils";
        EvWrite "/cfg/scripts/addons/object_print3d_utils/operators.py" "ops"].
Proof. vm_compute. repeat split; reflexivity. Qed.

(** ** The export block *)

Lemma name_of_with_name_of {H : Type} (o : nat) (n : string) (w : World H) :
  name_of (with_name_of o n w) o = n.
Proof.
  unfold name_of, with_name_of, upd_object. cbn [objects].
  rewrite Nat.eqb_refl. reflexivity.
Qed.


(** C10.  After a successful [repair_stl] the imported object has the name
    it had when the export block began: the rename to the output stem is
    undone. *)
Theorem export_restores_name {H : Type} (h : Host H)
  (input_path output_path : Path) (use_print_addon : bool) (sfx : string)
  (w : World H) (final_file : Path) :
  outcome (repair_stl h input_path output_path use_print_addon sfx w) = Ret final_file ->
  exists obj,
    outcome (load_and_repair h input_path use_print_addon sfx w) = Ret obj
    /\ name_of (world (repair_stl h input_path output_path use_print_addon sfx w)) obj
       = name_of (world (load_and_repair h input_path use_print_addon sfx w)) obj.
Proof.
  intros E. unfold repair_stl in *.
  apply bind_ret_inv in E. destruct E as (obj & El & E & Ew & _).
  exists obj. split; [exact El|]. rewrite Ew.
  destruct (export_stage_run h output_path obj
              (world (load_and_repair h input_path use_print_addon sfx w)))
    as (st & w' & msgs & _ & Ee).
  cbv zeta in Ee. rewrite Ee in *. clear Ee.
  destruct st as [|e|]; cbn [is_done] in *; rewrite res_outcome in E;
    try discriminate.
  rewrite res_world. apply name_of_with_name_of.
Qed.

Lemma export_restores_name_witness :
  let r := repair_stl (demo_host full_config) (parse "parts/gear.stl")
             (parse "out/gear_fixed.stl") true "_fixed"
             (empty_scene ["parts/gear.stl"]) in
  let l := load_and_repair (demo_host full_config) (parse "parts/gear.stl")
             true "_fixed" (empty_scene ["parts/gear.stl"]) in
  outcome r = Ret (parse "out/gear_fixed.stl")
  /\ exists obj,
       outcome l = Ret obj /\ name_of (world r) obj = name_of (world l) obj.
Proof.
  cbv zeta.
  assert (E : outcome (repair_stl (demo_host full_config) (parse "parts/gear.stl")
                         (parse "out/gear_fixed.stl") true "_fixed"
                         (empty_scene ["parts/gear.stl"]))
              = Ret (parse "out/gear_fixed.stl")) by (vm_compute; reflexivity).
  split; [exact E|].
  exact (export_restores_name (demo_host full_config) (parse "parts/gear.stl")
           (parse "out/gear_fixed.stl") true "_fixed"
           (empty_scene ["parts/gear.stl"]) (parse "out/gear_fixed.stl") E).
Defined.

(** When the export fails the rename is not undone: the object keeps the
    stem of the output path as its name. *)
Example failed_export_keeps_stem :
  let r := repair_stl (demo_host (mkConfig ImportSelects Absent Working Working
                                    (Some (true, true)) Working true []))
             (parse "parts/gear.stl") (parse "out/result.stl") true "_fixed"
             (empty_scene ["parts/gear.stl"]) in
  outcome r = Raise export_failed /\ name_of (world r) 0 = "result"%string.
Proof. vm_compute. repeat split; reflexivity. Qed.

(** ** The output path *)

Lemma str_app_assoc (a b c : string) :
  ((a ++ b) ++ c = a ++ b ++ c)%string.
Proof. induction a as [|x a IH]; simpl; [reflexivity | rewrite IH; reflexivity]. Qed.


Lemma with_name_ok (p q : Path) (n : string) :
  with_name p n = PyOk q -> q = replace_name p n.
Proof.
  unfold with_name.
  destruct (String.eqb (name p) ""); [discriminate|].
  destruct (invalid_name n); [discriminate|].
  intros E. injection E as <-. reflexivity.
Qed.

Lemma with_suffix_stl_ok (p q : Path) :
  with_suffix p ".stl" = PyOk q -> q = replace_name p (stem p ++ ".stl")%string.
Proof.
  unfold with_suffix. cbn [has_char]. cbv beta iota delta [Ascii.eqb Bool.eqb slash orb].
  cbn.
  destruct (String.eqb (name p) ""); [discriminate|].
  intros E. injection E as <-. reflexivity.
Qed.

(** The output path [main] works out is the one the specification
    describes, whenever [main] gets past working it out. *)
Lemma main_output_derived (a : Args) (out : Path) :
  main_output a = PyOk out -> out = derived_output a.
Proof.
  unfold main_output, derived_output, chosen_output.
  destruct (output a) as [o|].
  - destruct (String.eqb (lower (suffix o)) ".stl"); cbn [negb].
    + intros E. injection E as <-. reflexivity.
    + apply with_suffix_stl_ok.
  - unfold with_stem.
    destruct (with_name (input a)
                ((stem (input a) ++ arg_suffix a) ++ suffix (input a))%string)
      as [c|e] eqn:Ec; [|discriminate].
    apply with_name_ok in Ec. rewrite str_app_assoc in Ec. subst c.
    destruct (String.eqb (lower (suffix _)) ".stl"); cbn [negb].
    + intros E. injection E as <-. reflexivity.
    + apply with_suffix_stl_ok.
Qed.




(** Some derivations.  An input without extension gets [.stl]; an [-o] with
    another extension has it replaced; a suffix with a dot on an input without
    extension is taken for an extension and replaced. *)
Example derived_outputs :
  main_output (default_args "parts/gear.stl") = PyOk (parse "parts/gear_fixed.stl")
  /\ main_output (default_args "gear") = PyOk (parse "gear_fixed.stl")
  /\ main_output (mkArgs "gear.stl" (Some "out/result.obj") "_fixed" 2 false false)
     = PyOk (parse "out/result.stl")
  /\ main_output (mkArgs "gear.tar.gz" None "-v2" 2 false false)
     = PyOk (parse "gear.tar-v2.stl")
  /\ main_output (mkArgs "gear" None ".v2" 2 false false) = PyOk (parse "gear.stl")
  /\ main_suffix (mkArgs "gear.stl" (Some "out/result.obj") "_fixed" 2 false false)
     = ""%string.
Proof. vm_compute. repeat split; reflexivity. Qed.

(** ** Further properties *)

(** X1.  With [use_print_addon] set, [repair_stl] never runs the generic
    repair, on any host and whatever becomes of the add-on's operators: its
    notice is not logged and none of its operators is called. *)
Theorem addon_path_never_repairs {H : Type} (h : Host H)
  (input_path output_path : Path) (sfx : string) (w : World H) :
  ran_basic_repair (events (repair_stl h input_path output_path true sfx w)) = false
  /\ existsb is_generic_op
       (events (repair_stl h input_path output_path true sfx w)) = false.
Proof.
  split.
  - apply (addon_path_never_logs_basic h input_path output_path sfx w).
  - apply (addon_path_skips_generic_ops h input_path output_path sfx w).
Qed.

(** X2.  An operator path without a dot makes [safe_call] raise
    [ValueError]: the result of [rsplit] cannot be unpacked. *)
Theorem safe_call_needs_dot {H : Type} (h : Host H) (op_path : string)
  (kw : kwargs) (w : World H) :
  has_char dot op_path = false ->
  safe_call h op_path kw w = mkRes (Raise unpack_error) w [].
Proof. apply safe_call_no_dot. Qed.

Lemma safe_call_needs_dot_witness :
  has_char dot "fill_holes" = false
  /\ safe_call (demo_host full_config) "fill_holes" [] (empty_scene [])
     = mkRes (Raise unpack_error) (empty_scene []) [].
Proof.
  split; [reflexivity|].
  apply (safe_call_needs_dot (demo_host full_config) "fill_holes" []
           (empty_scene [])).
  reflexivity.
Defined.

(** X3.  Neither [attempt_install_print_addon] nor [enable_print_addon]
    raises or exits: each returns a boolean on every host. *)
Theorem addon_setup_never_raises {H : Type} (h : Host H) (w : World H) :
  (exists b, outcome (attempt_install_print_addon h w) = Ret b)
  /\ (exists b, outcome (enable_print_addon h w) = Ret b).
Proof.
  split; [apply returns_attempt_install | apply returns_enable].
Qed.

(** X4.  With [--force-basic] the add-on is not looked for: nothing is
    downloaded, [preferences.addon_enable] is not called, and no operator of
    the add-on is called. *)
Theorem force_basic_skips_addon {H : Type} (h : Host H) (a : Args) (w : World H) :
  arg_force_basic a = true ->
  fetch_count (events (main h a w)) = 0
  /\ attempted "preferences.addon_enable" (events (main h a w)) = false
  /\ existsb is_print3d_op (events (main h a w)) = false.
Proof.
  intros F.
  assert (C : choose_addon h a w = mkRes (Ret false) w [])
    by (unfold choose_addon; rewrite F; reflexivity).
  rewrite main_run.
  destruct (path_exists h w (to_str (input a))) as [[|]|k msg];
    [|repeat split|repeat split].
  destruct (main_output a) as [out|e]; [|repeat split].
  cbv zeta. rewrite C, !res_outcome, !res_world, !res_events.
  rewrite guarded_repair_run. cbv zeta.
  assert (S1 : silent is_fetch (repair_stl h (input a) out false (main_suffix a)))
    by silence_script.
  assert (S2 : silent (is_op "preferences.addon_enable")
                 (repair_stl h (input a) out false (main_suffix a)))
    by silence_script.
  pose proof (basic_path_skips_print3d h (input a) out (main_suffix a) w) as S3.
  pose proof (silent_no_fetch _ S1 w) as N. specialize (S2 w).
  unfold attempted.
  destruct (outcome (repair_stl h (input a) out false (main_suffix a) w));
    rewrite !res_events; cbn [app existsb is_op is_print3d_op];
    rewrite ?fetch_count_log, ?fetch_count_app, ?existsb_app, ?S2, ?S3;
    cbn [fetch_count filter is_fetch length existsb is_op is_print3d_op orb];
    repeat split; lia.
Qed.

Lemma force_basic_skips_addon_witness :
  let a := mkArgs "parts/gear.stl" None "_fixed" 2 false true in
  let r := main (demo_host bare_config) a (empty_scene ["parts/gear.stl"]) in
  arg_force_basic a = true
  /\ fetch_count (events r) = 0
  /\ attempted "preferences.addon_enable" (events r) = false
  /\ existsb is_print3d_op (events r) = false.
Proof.
  cbv zeta. split; [reflexivity|].
  apply (force_basic_skips_addon (demo_host bare_config)
           (mkArgs "parts/gear.stl" None "_fixed" 2 false true)
           (empty_scene ["parts/gear.stl"])).
  reflexivity.
Defined.

(** ** Enabling the add-on *)

Section EnableFacts.
Context {H : Type}.
Variable h : Host H.
Implicit Types (w : World H) (f : event -> bool).

(** A direct operator call returns exactly when the operator exists and
    returns; the one event it leaves says which. *)
Lemma call_op_cases m n kw w :
  match lookup_op h w m n with
  | None =>
      call_op h m n kw w =
        mkRes (Raise (AttributeError ("bpy.ops." ++ m ++ "." ++ n)%string)) w
          [EvOp (m ++ "." ++ n)%string kw OpMissing]
  | Some op =>
      match op kw w with
      | HOk _ w' =>
          call_op h m n kw w =
            mkRes (Ret tt) w' [EvOp (m ++ "." ++ n)%string kw OpDone]
      | HRaise e w' =>
          call_op h m n kw w =
            mkRes (Raise e) w' [EvOp (m ++ "." ++ n)%string kw (OpRaised e)]
      end
  end.
Proof.
  unfold call_op. rewrite bind_get.
  destruct (lookup_op h w m n) as [op|]; [|reflexivity].
  unfold try_except, bind, host_call.
  destruct (op kw w) as [[] w'|e w']; reflexivity.
Qed.

Lemma call_op_ret_done m n kw w :
  outcome (call_op h m n kw w) = Ret tt ->
  op_done (m ++ "." ++ n)%string (events (call_op h m n kw w)) = true.
Proof.
  pose proof (call_op_cases m n kw w) as C.
  destruct (lookup_op h w m n) as [op|]; [|rewrite C; discriminate].
  destruct (op kw w) as [[] w'|e w']; rewrite C; [|discriminate].
  intros _. unfold op_done. cbn [events existsb is_op_done is_done].
  rewrite String.eqb_refl. reflexivity.
Qed.


(** Propagation of "some event satisfies [f]" through a run that returns. *)
Lemma loud_ret_bind {A B} f (m : M H A) (k : A -> M H B) w b :
  outcome (bind m k w) = Ret b ->
  (forall a, outcome (m w) = Ret a ->
             outcome (k a (world (m w))) = Ret b ->
             existsb f (events (m w)) = true
             \/ existsb f (events (k a (world (m w)))) = true) ->
  existsb f (events (bind m k w)) = true.
Proof.
  intros E Hk. apply bind_ret_inv in E. destruct E as (a & Ea & Eb & _ & Ee).
  rewrite Ee, existsb_app. destruct (Hk a Ea Eb) as [L|L]; rewrite L;
    [reflexivity | apply orb_true_r].
Qed.

Lemma try_enable_true_done res w :
  outcome (try_enable h res w) = Ret true ->
  op_done "preferences.addon_enable" (events (try_enable h res w)) = true.
Proof.
  unfold try_enable. destruct (fst res || snd res); [|discriminate].
  intros E. apply try_ret_inv in E. destruct E as [[E Et]|(e & _ & E)].
  - rewrite Et. eapply loud_ret_bind; [exact E|].
    intros [] Ea _. left.
    apply (call_op_ret_done "preferences" "addon_enable" [("module", VStr addon_module)] w Ea).
  - apply bind_ret_inv in E. destruct E as (a & _ & E & _). discriminate.
Qed.

Lemma attempt_install_true_done w :
  outcome (attempt_install_print_addon h w) = Ret true ->
  op_done "preferences.addon_enable"
    (events (attempt_install_print_addon h w)) = true.
Proof.
  unfold attempt_install_print_addon. intros E.
  apply try_ret_inv in E. destruct E as [[E Et]|(e & _ & E)].
  2:{ apply bind_ret_inv in E. destruct E as (a & _ & E & _). discriminate. }
  rewrite Et. eapply loud_ret_bind; [exact E|]. intros d _ E1. right.
  eapply loud_ret_bind; [exact E1|]. intros w0 _ E2. right.
  eapply loud_ret_bind; [exact E2|]. intros [] _ E3. right.
  eapply loud_ret_bind; [exact E3|]. intros [] _ E4. right.
  eapply loud_ret_bind; [exact E4|]. intros [] E5 _. left.
  apply (call_op_ret_done "preferences" "addon_enable" [("module", VStr addon_module)] _ E5).
Qed.

End EnableFacts.

(** X5.  Whenever [enable_print_addon] or [attempt_install_print_addon]
    returns [True], [bpy.ops.preferences.addon_enable] was called and
    returned without raising. *)
Theorem true_means_addon_enabled {H : Type} (h : Host H) (w : World H) :
  (outcome (attempt_install_print_addon h w) = Ret true ->
   op_done "preferences.addon_enable"
     (events (attempt_install_print_addon h w)) = true)
  /\ (outcome (enable_print_addon h w) = Ret true ->
      op_done "preferences.addon_enable" (events (enable_print_addon h w)) = true).
Proof.
  split; [apply attempt_install_true_done|].
  pose proof (enable_run h w) as R.
  destruct (import_addon_utils h w) as [[] w0|e w0];
    [|rewrite R; discriminate].
  destruct (addon_utils_check h addon_module w0) as [res w1|e w1];
    [|rewrite R; discriminate].
  cbv zeta in R. rewrite R. clear R.
  pose proof (try_enable_true_done h res w1) as T.
  pose proof (attempt_install_true_done h (world (try_enable h res w1))) as A.
  destruct (try_enable_shape h res w1) as (b & Eb & _). rewrite Eb in *.
  destruct b; rewrite ?res_outcome, ?res_events; intros E; auto.
  unfold op_done in *. rewrite existsb_app. cbn [existsb].
  rewrite (A E), !orb_true_r. reflexivity.
Qed.

Lemma true_means_addon_enabled_witness :
  outcome (enable_print_addon (demo_host bare_config) (empty_scene [])) = Ret true
  /\ op_done "preferences.addon_enable"
       (events (enable_print_addon (demo_host bare_config) (empty_scene []))) = true.
Proof.
  assert (E : outcome (enable_print_addon (demo_host bare_config) (empty_scene []))
              = Ret true) by (vm_compute; reflexivity).
  split; [exact E|].
  exact (proj2 (true_means_addon_enabled (demo_host bare_config) (empty_scene [])) E).
Defined.

(** X6.  When [addon_utils] cannot be imported, or its [check] raises,
    [enable_print_addon] returns [False] at once: one DEBUG line, no operator
    call, no installation attempt. *)
Theorem enable_gives_up_without_addon_utils {H : Type} (h : Host H)
  (w w' : World H) (e : pyexn) :
  import_addon_utils h w = HRaise e w'
  \/ (exists w0, import_addon_utils h w = HOk tt w0
                 /\ addon_utils_check h addon_module w0 = HRaise e w') ->
  enable_print_addon h w =
    mkRes (Ret false) w'
      [EvLog "DEBUG" ("Add-on check failed: " ++ exn_str e)%string].
Proof.
  pose proof (enable_run h w) as R.
  intros [E|(w0 & E0 & E1)].
  - rewrite E in R. exact R.
  - rewrite E0, E1 in R. exact R.
Qed.

Lemma enable_gives_up_without_addon_utils_witness :
  let c := mkConfig ImportSelects Working Working Working None Working true [] in
  let e := PyExn "ModuleNotFoundError" "No module named 'addon_utils'" in
  enable_print_addon (demo_host c) (empty_scene []) =
    mkRes (Ret false) (empty_scene [])
      [EvLog "DEBUG" ("Add-on check failed: " ++ exn_str e)%string].
Proof.
  cbv zeta.
  apply (enable_gives_up_without_addon_utils
           (demo_host (mkConfig ImportSelects Working Working Working None
                         Working true []))
           (empty_scene []) (empty_scene [])
           (PyExn "ModuleNotFoundError" "No module named 'addon_utils'")).
  left. reflexivity.
Defined.

(** X7.  When [addon_utils.check] reports the add-on (either flag) and
    enabling it succeeds, [enable_print_addon] returns [True] after that one
    operator call: nothing is installed or downloaded. *)
Theorem enable_present_addon {H : Type} (h : Host H)
  (w w0 w1 w2 : World H) (res : bool * bool) (op : Operator H) :
  import_addon_utils h w = HOk tt w0 ->
  addon_utils_check h addon_module w0 = HOk res w1 ->
  fst res || snd res = true ->
  lookup_op h w1 "preferences" "addon_enable" = Some op ->
  op [("module", VStr addon_module)] w1 = HOk tt w2 ->
  enable_print_addon h w =
    mkRes (Ret true) w2
      [EvOp "preferences.addon_enable" [("module", VStr addon_module)] OpDone;
       EvLog "DEBUG" "3D Print add-on enabled"].
Proof.
  intros E0 E1 Ea L O.
  pose proof (enable_run h w) as R. rewrite E0, E1 in R. cbv zeta in R.
  assert (T : try_enable h res w1 =
              mkRes (Ret true) w2
                [EvOp "preferences.addon_enable" [("module", VStr addon_module)] OpDone;
                 EvLog "DEBUG" "3D Print add-on enabled"]).
  { unfold try_enable. rewrite Ea.
    pose proof (call_op_cases h "preferences" "addon_enable"
                  [("module", VStr addon_module)] w1) as C.
    rewrite L, O in C.
    unfold try_except. rewrite (bind_run_eq _ _ _ _ _ _ C). reflexivity. }
  rewrite T in R. exact R.
Qed.

Lemma enable_present_addon_witness :
  enable_print_addon (demo_host full_config) (empty_scene []) =
    mkRes (Ret true) (empty_scene [])
      [EvOp "preferences.addon_enable" [("module", VStr addon_module)] OpDone;
       EvLog "DEBUG" "3D Print add-on enabled"].
Proof.
  apply (enable_present_addon (demo_host full_config)
           (empty_scene []) (empty_scene []) (empty_scene []) (empty_scene [])
           (true, true) (fun _ w => HOk tt w)); reflexivity.
Defined.



(** ** The download and the extraction *)

Lemma writes_app (a b : list event) : writes (a ++ b) = writes a ++ writes b.
Proof.
  induction a as [|ev a IH]; [reflexivity|].
  destruct ev; simpl; rewrite IH; reflexivity.
Qed.


Section Extraction.
Context {H : Type}.
Variable h : Host H.
Implicit Types (w : World H).


End Extraction.


(** The sample archive: the member of another add-on is skipped. *)
Example extraction_of_sample_archive :
  writes (events (extract_members (demo_host bare_config) "/cfg/addons"
                    sample_archive (empty_scene [])))
  = [("/cfg/addons/object_print3d_utils/__init__.py", "init");
     ("/cfg/addons/object_print3d_utils/operators.py", "ops")].
Proof. vm_compute. reflexivity. Qed.

(** ** Where a member of the archive lands *)

Lemma after_last_go_none (sep seg s : string) :
  occurs sep s = false -> after_last_go sep 0 seg s = seg.
Proof.
  induction s as [|a s IH]; [reflexivity|].
  cbn [occurs after_last_go]. intros E. apply orb_false_iff in E.
  destruct E as [E1 E2]. rewrite E1. exact (IH E2).
Qed.

Lemma after_last_go_skip (sep seg x s : string) :
  after_last_go sep (String.length x) seg (x ++ s)%string
  = after_last_go sep 0 seg s.
Proof.
  induction x as [|a x IH]; [destruct s; reflexivity|].
  cbn [String.length String.append after_last_go]. exact IH.
Qed.

Lemma prefix_app (sep s : string) : String.prefix sep (sep ++ s)%string = true.
Proof.
  induction sep as [|a sep IH]; [destruct s; reflexivity|].
  cbn [String.append String.prefix].
  destruct (ascii_dec a a) as [_|N]; [exact IH | contradiction].
Qed.

Lemma drop_app (x s : string) : drop (String.length x) (x ++ s)%string = s.
Proof. induction x as [|a x IH]; [destruct s; reflexivity | exact IH]. Qed.

(** [(sep + s).split(sep)[-1] == s] when [sep] does not occur in [s]. *)
Lemma split_last_prefix (sep s : string) :
  sep <> EmptyString -> occurs sep s = false ->
  split_last sep (sep ++ s)%string = s.
Proof.
  intros N O. unfold split_last.
  destruct sep as [|c sep']; [contradiction|].
  change (String c sep' ++ s)%string with (String c (sep' ++ s)%string).
  cbn [after_last_go].
  change (String c (sep' ++ s)%string) with (String c sep' ++ s)%string.
  rewrite prefix_app, drop_app.
  cbn [String.length Nat.sub]. rewrite ?Nat.sub_0_r.
  rewrite after_last_go_skip. apply after_last_go_none. exact O.
Qed.

(** X11.  A member [blender-addons-main/object_print3d_utils/TAIL] whose
    [TAIL] does not contain [blender-addons-main/] again is put at the user
    add-on directory joined with [object_print3d_utils/TAIL]: one leading
    archive folder is stripped and the rest of the name is kept. *)
Theorem member_lands_in_addon_folder (user_addon_dir tail : string) :
  occurs archive_prefix tail = false ->
  addon_member (archive_prefix ++ addon_module ++ "/" ++ tail) = true
  /\ target_of user_addon_dir (archive_prefix ++ addon_module ++ "/" ++ tail)
     = path_join user_addon_dir (addon_module ++ "/" ++ tail).
Proof.
  intros O. split.
  - unfold addon_member, startswith.
    rewrite <- !str_app_assoc. apply prefix_app.
  - unfold target_of. f_equal. apply split_last_prefix; [discriminate|].
    cbn. exact O.
Qed.

Lemma member_lands_in_addon_folder_witness :
  occurs archive_prefix "ui/panel.py" = false
  /\ addon_member "blender-addons-main/object_print3d_utils/ui/panel.py" = true
  /\ target_of "/cfg/addons" "blender-addons-main/object_print3d_utils/ui/panel.py"
     = "/cfg/addons/object_print3d_utils/ui/panel.py"%string.
Proof.
  split; [reflexivity|].
  exact (member_lands_in_addon_folder "/cfg/addons" "ui/panel.py" eq_refl).
Defined.

(** When the archive folder's name comes again inside a member's name, the
    text after its last occurrence decides: the file lands outside
    [object_print3d_utils], and at an absolute path if that text starts with
    a slash. *)
Example member_with_nested_prefix :
  target_of "/cfg/addons"
    "blender-addons-main/object_print3d_utils/blender-addons-main/x.py"
  = "/cfg/addons/x.py"%string
  /\ target_of "/cfg/addons"
       "blender-addons-main/object_print3d_utils/blender-addons-main//etc/x"
     = "/etc/x"%string.
Proof. split; reflexivity. Qed.

(** ** A failed download *)

(** X9.  When the add-on folder is missing and the download raises, nothing
    is unzipped or written and the add-on is not enabled: the attempt returns
    [False] after one fetch, and the warning carries the download's error, or
    the error of removing the temporary directory when that raises too. *)
Theorem failed_download_installs_nothing {H : Type} (h : Host H)
  (w w1 w2 w3 : World H) (d td : string) (e : pyexn) :
  user_resource h "SCRIPTS" "addons" true w = HOk d w1 ->
  os_path_isdir h w1 (path_join d addon_module) = false ->
  mkdtemp h w1 = HOk td w2 ->
  urlretrieve h addon_url (path_join td "addons.zip") w2 = HRaise e w3 ->
  let warn (x : pyexn) :=
    [EvLog "INFO" "Downloading object_print3d_utils (blender-addons main)...";
     EvFetch addon_url (path_join td "addons.zip");
     EvLog "WARNING" ("Automatic add-on install failed: " ++ exn_str x)%string] in
  attempt_install_print_addon h w =
    match rmtree h td w3 with
    | HOk _ w4 => mkRes (Ret false) w4 (warn e)
    | HRaise e' w4 => mkRes (Ret false) w4 (warn e')
    end.
Proof.
  intros Eu Ed Et Ef. cbv zeta.
  assert (D : download_and_extract h d td w2 =
              mkRes (Raise e) w3 [EvFetch addon_url (path_join td "addons.zip")]).
  { unfold download_and_extract. rewrite bind_emit.
    rewrite (bind_raise_run _ _ _ e);
      [|rewrite (host_call_raise _ _ _ _ Ef); reflexivity].
    rewrite (host_call_raise _ _ _ _ Ef). reflexivity. }
  unfold attempt_install_print_addon, try_except.
  rewrite (bind_run_eq _ _ _ _ _ _ (host_call_ok _ _ _ _ Eu)). cbv beta zeta.
  rewrite bind_get. cbv beta. rewrite Ed. cbn [negb].
  rewrite !res_outcome, !res_world, !res_events.
  rewrite !bind_assoc. unfold log. rewrite bind_emit.
  rewrite !res_outcome, !res_world, !res_events.
  rewrite !bind_assoc.
  rewrite (bind_run_eq _ _ _ _ _ _ (host_call_ok _ _ _ _ Et)). cbv beta.
  rewrite !res_outcome, !res_world, !res_events.
  rewrite !bind_assoc.
  assert (C : with_cleanup (download_and_extract h d td) (host_call (rmtree h td)) w2
              = match rmtree h td w3 with
                | HOk _ w4 =>
                    mkRes (Raise e) w4 [EvFetch addon_url (path_join td "addons.zip")]
                | HRaise e' w4 =>
                    mkRes (Raise e') w4 [EvFetch addon_url (path_join td "addons.zip")]
                end).
  { unfold with_cleanup. rewrite D, res_world, res_outcome, res_events.
    unfold host_call. destruct (rmtree h td w3) as [[] w4|e' w4]; reflexivity. }
  destruct (rmtree h td w3) as [[] w4|e' w4].
  - rewrite (bind_raise_run _ _ _ e); [|rewrite C; reflexivity].
    rewrite C. reflexivity.
  - rewrite (bind_raise_run _ _ _ e'); [|rewrite C; reflexivity].
    rewrite C. reflexivity.
Qed.

Lemma failed_download_installs_nothing_witness :
  attempt_install_print_addon (demo_host offline_config) (empty_scene []) =
    mkRes (Ret false) (empty_scene [])
      [EvLog "INFO" "Downloading object_print3d_utils (blender-addons main)...";
       EvFetch addon_url (path_join "/tmp/td" "addons.zip");
       EvLog "WARNING"
         ("Automatic add-on install failed: "
          ++ exn_str (PyExn "URLError" "<urlopen error timed out>"))%string].
Proof.
  apply (failed_download_installs_nothing (demo_host offline_config)
           (empty_scene []) (empty_scene []) (empty_scene []) (empty_scene [])
           addons_dir "/tmp/td" (PyExn "URLError" "<urlopen error timed out>"));
    reflexivity.
Defined.

(** ** File names and extensions *)

Lemma rsplit1_no_char (c : ascii) (s : string) :
  rsplit1 c s = None -> has_char c s = false.
Proof.
  induction s as [|a s IH]; [reflexivity|].
  cbn [rsplit1 has_char].
  destruct (rsplit1 c s) as [[l r]|]; [discriminate|].
  destruct (Ascii.eqb a c); [discriminate|]. intros _. exact (IH eq_refl).
Qed.

(** The split at the last [c]: the parts put the string together again and
    the right part has no [c]. *)
Lemma rsplit1_spec (c : ascii) (s l r : string) :
  rsplit1 c s = Some (l, r) ->
  s = (l ++ String c r)%string /\ has_char c r = false.
Proof.
  revert l. induction s as [|a s IH]; intros l; [discriminate|].
  cbn [rsplit1].
  destruct (rsplit1 c s) as [[l' r']|] eqn:E.
  - intros Eq. injection Eq as <- <-.
    destruct (IH l' eq_refl) as [-> Hr]. split; [reflexivity | exact Hr].
  - destruct (Ascii.eqb a c) eqn:Ea; [|discriminate].
    intros Eq. injection Eq as <- <-.
    apply Ascii.eqb_eq in Ea. subst a. split; [reflexivity|].
    apply rsplit1_no_char. exact E.
Qed.

Lemma has_char_app (c : ascii) (a b : string) :
  has_char c (a ++ b)%string = has_char c a || has_char c b.
Proof.
  induction a as [|x a IH]; [reflexivity|].
  cbn [String.append has_char]. rewrite IH, orb_assoc. reflexivity.
Qed.

Lemma rsplit1_app (c : ascii) (l r : string) :
  has_char c r = false -> rsplit1 c (l ++ String c r)%string = Some (l, r).
Proof.
  intros Hr. induction l as [|a l IH].
  - cbn [String.append rsplit1]. rewrite (rsplit1_none c r Hr), Ascii.eqb_refl.
    reflexivity.
  - cbn [String.append rsplit1]. rewrite IH. reflexivity.
Qed.


(** A suffix is empty or a dot followed by a non-empty text without dots;
    the stem of a non-empty name is not empty. *)
Lemma split_ext_shape (n : string) :
  (snd (split_ext n) = EmptyString /\ fst (split_ext n) = n)
  \/ exists r, snd (split_ext n) = String dot r
               /\ r <> EmptyString /\ has_char dot r = false
               /\ fst (split_ext n) <> EmptyString.
Proof.
  unfold split_ext. destruct (rsplit1 dot n) as [[l r]|] eqn:E; [|left; auto].
  destruct (String.eqb l "") eqn:El; cbn [orb fst snd]; [left; auto|].
  destruct (String.eqb r "") eqn:Er; cbn [fst snd]; [left; auto|].
  right. exists r. split; [reflexivity|].
  apply String.eqb_neq in El, Er.
  split; [exact Er|]. split; [apply (rsplit1_spec dot n l r E) | exact El].
Qed.

Lemma stem_nonempty (n : string) :
  n <> EmptyString -> fst (split_ext n) <> EmptyString.
Proof.
  intros N. destruct (split_ext_shape n) as [[_ E]|(r & _ & _ & _ & E)];
    [rewrite E; exact N | exact E].
Qed.

Lemma str_app_nonempty (a b : string) :
  a <> EmptyString -> (a ++ b)%string <> EmptyString.
Proof. destruct a; [contradiction | discriminate]. Qed.

(** Adding an extension to a non-empty text gives a name with that stem and
    that extension. *)
Lemma split_ext_app (s r : string) :
  s <> EmptyString -> r <> EmptyString -> has_char dot r = false ->
  split_ext (s ++ String dot r) = (s, String dot r).
Proof.
  intros Ns Nr Hr. unfold split_ext. rewrite (rsplit1_app dot s r Hr).
  apply String.eqb_neq in Ns, Nr. rewrite Ns, Nr. reflexivity.
Qed.

Lemma name_replace_name (p : Path) (n : string) : name (replace_name p n) = n.
Proof. unfold name, replace_name. cbn [parts]. apply last_last. Qed.

Lemma parent_replace_name (p : Path) (n : string) :
  parent (replace_name p n) = parent p.
Proof.
  unfold parent, replace_name. cbn [parts root].
  rewrite removelast_last. reflexivity.
Qed.

Lemma with_name_checks (p q : Path) (n : string) :
  with_name p n = PyOk q -> name p <> EmptyString.
Proof.
  unfold with_name. destruct (String.eqb (name p) "") eqn:E; [discriminate|].
  intros _. apply String.eqb_neq. exact E.
Qed.

Lemma with_suffix_checks (p q : Path) :
  with_suffix p ".stl" = PyOk q -> name p <> EmptyString.
Proof.
  unfold with_suffix. cbn [has_char]. cbn.
  destruct (String.eqb (name p) "") eqn:E; [discriminate|].
  intros _. apply String.eqb_neq. exact E.
Qed.

Lemma suffix_after_with_suffix (p q : Path) :
  with_suffix p ".stl" = PyOk q -> suffix q = ".stl"%string.
Proof.
  intros E. pose proof (with_suffix_checks p q E) as N.
  apply with_suffix_stl_ok in E. subst q.
  unfold suffix. rewrite name_replace_name.
  change (stem p ++ ".stl")%string with (stem p ++ String dot "stl")%string.
  rewrite split_ext_app; [reflexivity | | discriminate | reflexivity].
  apply stem_nonempty. exact N.
Qed.

(** X12.  Whatever the arguments, an output path [main] gets to use has the
    extension [.stl], in some letter case. *)
Theorem output_always_stl (a : Args) (out : Path) :
  main_output a = PyOk out -> lower (suffix out) = ".stl"%string.
Proof.
  unfold main_output.
  destruct (match output a with
            | Some o => PyOk o
            | None => with_stem (input a) (stem (input a) ++ arg_suffix a)
            end) as [o|e]; [|discriminate].
  destruct (String.eqb (lower (suffix o)) ".stl") eqn:E; cbn [negb].
  - intros Eq. injection Eq as <-. apply String.eqb_eq. exact E.
  - intros Eq. rewrite (suffix_after_with_suffix o out Eq). reflexivity.
Qed.

Lemma output_always_stl_witness :
  main_output (mkArgs "scan.ply" (Some "out/scan.obj") "_fixed" 2 false false)
  = PyOk (parse "out/scan.stl")
  /\ lower (suffix (parse "out/scan.stl")) = ".stl"%string.
Proof.
  assert (E : main_output (mkArgs "scan.ply" (Some "out/scan.obj") "_fixed" 2
                             false false)
              = PyOk (parse "out/scan.stl")) by reflexivity.
  split; [exact E|].
  exact (output_always_stl
           (mkArgs "scan.ply" (Some "out/scan.obj") "_fixed" 2 false false)
           (parse "out/scan.stl") E).
Defined.

(** X13.  Without [-o] the output is written alongside the input (same
    parent directory), and for an input whose extension is [.stl] in some
    letter case its name is the input's stem, then the suffix, then the
    input's extension as typed. *)
Theorem default_output_alongside_input (a : Args) (out : Path) :
  arg_output a = None ->
  main_output a = PyOk out ->
  parent out = parent (input a)
  /\ (lower (suffix (input a)) = ".stl"%string ->
      name out = (stem (input a) ++ arg_suffix a ++ suffix (input a))%string).
Proof.
  intros No E. pose proof (main_output_derived a out E) as D.
  unfold derived_output, chosen_output, output in D. rewrite No in D.
  cbn [option_map] in D.
  assert (Nn : name (input a) <> EmptyString).
  { unfold main_output, output in E. rewrite No in E. cbn [option_map] in E.
    unfold with_stem in E.
    destruct (with_name (input a) _) as [c|e] eqn:Ec; [|discriminate].
    exact (with_name_checks _ _ _ Ec). }
  split.
  - subst out. destruct (String.eqb _ ".stl");
      rewrite ?parent_replace_name; reflexivity.
  - intros Hs.
    assert (Sx : suffix (replace_name (input a)
                           (stem (input a) ++ arg_suffix a ++ suffix (input a)))
                 = suffix (input a)).
    { unfold suffix at 1. rewrite name_replace_name.
      destruct (split_ext_shape (name (input a)))
        as [[Z _]|(r & Er & Nr & Hr & _)].
      - unfold suffix in Hs. rewrite Z in Hs. discriminate.
      - unfold suffix, stem. rewrite Er, <- str_app_assoc.
        rewrite split_ext_app; [reflexivity | | exact Nr | exact Hr].
        apply str_app_nonempty, stem_nonempty, Nn. }
    rewrite Sx, Hs in D. cbn in D. subst out. apply name_replace_name.
Qed.

Lemma default_output_alongside_input_witness :
  let a := default_args "models/part7/gear.STL" in
  arg_output a = None
  /\ main_output a = PyOk (parse "models/part7/gear_fixed.STL")
  /\ parent (parse "models/part7/gear_fixed.STL") = parent (input a)
  /\ (lower (suffix (input a)) = ".stl"%string ->
      name (parse "models/part7/gear_fixed.STL")
      = (stem (input a) ++ arg_suffix a ++ suffix (input a))%string).
Proof.
  cbv zeta. split; [reflexivity|].
  assert (E : main_output (default_args "models/part7/gear.STL")
              = PyOk (parse "models/part7/gear_fixed.STL")) by reflexivity.
  split; [exact E|].
  exact (default_output_alongside_input (default_args "models/part7/gear.STL")
           (parse "models/part7/gear_fixed.STL") eq_refl E).
Defined.

(** ** Parsed paths *)










(** The reported file is the output path itself when its extension is
    [.stl] in lower case, and differs from it otherwise: [main] lets an
    upper-case [.STL] through unchanged. *)
Example reported_file_upper_case :
  main_output (mkArgs "gear.stl" (Some "out/gear.STL") "_fixed" 2 false false)
  = PyOk (parse "out/gear.STL")
  /\ reported_file (parse "out/gear.STL") = parse "out/gear.stl"
  /\ reported_file (parse "out/gear.stl") = parse "out/gear.stl".
Proof. vm_compute. repeat split; reflexivity. Qed.

(** The whole run for [-o out/gear.STL]: the file announced is
    [out/gear.stl]. *)
Example upper_case_output_run :
  let a := mkArgs "parts/gear.stl" (Some "out/gear.STL") "_fixed" 2 false false in
  let r := main (demo_host full_config) a (empty_scene ["parts/gear.stl"]) in
  main_output a = PyOk (parse "out/gear.STL")
  /\ exit_status (outcome r) = 0%Z
  /\ logged "INFO" "Repaired file saved: out/gear.stl" (events r) = true.
Proof. vm_compute. repeat split; reflexivity. Qed.

(** A name that [with_name] accepts need not be plain: for the input
    [..stl] and the suffix [/x] the output path has the one component
    [./x.stl], and the file reported, [x.stl], is another path. *)
Example odd_suffix_output :
  let a := mkArgs "..stl" None "/x" 2 false false in
  main_output a = PyOk (mkPath "" ["./x.stl"])
  /\ suffix (mkPath "" ["./x.stl"]) = ".stl"%string
  /\ well_formed (mkPath "" ["./x.stl"]) = false
  /\ reported_file (mkPath "" ["./x.stl"]) = mkPath "" ["x.stl"].
Proof. vm_compute. repeat split; reflexivity. Qed.

Section Reported.
Context {H : Type}.
Variable h : Host H.


End Reported.



(** ** Order of the operator calls *)



Section CallOrder.
Context {H : Type}.
Variable h : Host H.
Implicit Types (w : World H).





End CallOrder.



(** ** What the exit code tells *)




(** ** How often the importer and the exporter are called *)

Lemma filter_none {A : Type} (f : A -> bool) (l : list A) :
  existsb f l = false -> filter f l = [].
Proof.
  induction l as [|x l IH]; [reflexivity|].
  cbn [existsb filter]. intros E. apply orb_false_iff in E. destruct E as [E1 E2].
  rewrite E1. exact (IH E2).
Qed.

Lemma filter_op_logs (p level : string) (msgs : list string) :
  filter (is_op p) (map (EvLog level) msgs) = [].
Proof. induction msgs as [|m msgs IH]; [reflexivity | exact IH]. Qed.

Section CallsOnce.
Context {H : Type}.
Variable h : Host H.
Implicit Types (w : World H).

Lemma load_imports_once i use sfx w :
  exists st,
    filter (is_op "wm.stl_import") (events (load_and_repair h i use sfx w))
    = [EvOp "wm.stl_import" (import_kwargs i) st].
Proof.
  unfold load_and_repair. safe_step. safe_step.
  match goal with
  | |- context [bind (safe_call ?h ?p ?kw) ?k ?w] =>
      destruct (safe_call_shape h p kw w eq_refl) as (st1 & w2 & msgs1 & E);
      rewrite (bind_run_eq (safe_call h p kw) k w _ w2 _ E); clear E;
      assert (S : silent (is_op "wm.stl_import") (k (is_done st1)))
        by (cbv beta; silence_script)
  end.
  exists st1. rewrite res_events, !filter_app.
  rewrite (filter_none _ _ (S w2)).
  cbn [filter is_op String.eqb Ascii.eqb Bool.eqb].
  rewrite !filter_op_logs. reflexivity.
Qed.

Lemma export_stage_exports_once o obj w :
  exists st,
    filter (is_op "wm.stl_export") (events (export_stage h o obj w))
    = [EvOp "wm.stl_export" (export_kwargs (parent o)) st].
Proof.
  destruct (export_stage_run h o obj w) as (st & w' & msgs & _ & Ee).
  cbv zeta in Ee. rewrite Ee. clear Ee. exists st.
  destruct (is_done st); rewrite res_events, ?filter_app;
    cbn [filter is_op String.eqb Ascii.eqb Bool.eqb];
    rewrite !filter_op_logs; reflexivity.
Qed.

End CallsOnce.

(** X18.  Every run of [repair_stl] calls the importer exactly once, with
    the input path as [filepath] and its parent as [directory], and never
    retries.  It calls the exporter exactly once, with the directory of the
    output path followed by a slash as [filepath] and batch mode on, unless
    the run stopped before with [Failed to import STL] or the [IndexError]
    of an empty selection, and then the exporter is not called at all. *)
Theorem importer_and_exporter_called_once {H : Type} (h : Host H)
  (input_path output_path : Path) (use_print_addon : bool) (sfx : string)
  (w : World H) :
  let r := repair_stl h input_path output_path use_print_addon sfx w in
  (exists st,
     filter (is_op "wm.stl_import") (events r)
     = [EvOp "wm.stl_import"
          [("filepath", VStr (to_str input_path));
           ("directory", VStr (to_str (parent input_path)))] st])
  /\ ((exists st,
         filter (is_op "wm.stl_export") (events r)
         = [EvOp "wm.stl_export"
              [("filepath", VStr (to_str (parent output_path) ++ "/")%string);
               ("display_type", VStr "DEFAULT");
               ("use_batch", VBool true);
               ("export_selected_objects", VBool true)] st])
      \/ (filter (is_op "wm.stl_export") (events r) = []
          /\ (outcome r = Raise import_failed \/ outcome r = Raise no_object))).
Proof.
  cbv zeta. unfold repair_stl.
  assert (Sx : silent (is_op "wm.stl_export")
                 (load_and_repair h input_path use_print_addon sfx))
    by silence_script.
  destruct (load_imports_once h input_path use_print_addon sfx w) as [st1 I].
  pose proof (load_and_repair_cases h input_path use_print_addon sfx w) as L.
  cbv zeta in L.
  destruct (outcome (load_and_repair h input_path use_print_addon sfx w))
    as [obj|e|c] eqn:E.
  - rewrite !(bind_ret_events _ _ _ _ E), !filter_app.
    assert (Si : silent (is_op "wm.stl_import") (export_stage h output_path obj))
      by silence_script.
    rewrite I, (filter_none _ _ (Si _)), (filter_none _ _ (Sx w)).
    destruct (export_stage_exports_once h output_path obj
                (world (load_and_repair h input_path use_print_addon sfx w)))
      as [st2 X].
    rewrite X. split; [exists st1; reflexivity|].
    left. exists st2. reflexivity.
  - rewrite !(bind_raise_events _ _ _ _ E), (bind_raise_outcome _ _ _ _ E).
    rewrite I, (filter_none _ _ (Sx w)).
    split; [exists st1; reflexivity|]. right. split; [reflexivity|].
    destruct L as [[-> _]|[-> _]]; [left | right]; reflexivity.
  - destruct L.
Qed.

(** ** The legacy entry point *)

Lemma os_error_not_import_error (k : OSErrorKind) (msg : string) :
  is_import_error (os_error k msg) = false.
Proof. destruct k; reflexivity. Qed.

(** What escapes [main]: the [OSError] of [exists()], or the [ValueError] of
    the output path. *)
Lemma main_raises_no_import_error {H : Type} (h : Host H) (a : Args)
  (w : World H) (e : pyexn) :
  outcome (main h a w) = Raise e -> is_import_error e = false.
Proof.
  rewrite main_run.
  destruct (path_exists h w (to_str (input a))) as [[|]|k msg].
  2:{ rewrite res_outcome. discriminate. }
  2:{ rewrite res_outcome. intros E. injection E as <-.
      apply os_error_not_import_error. }
  destruct (main_output a) as [out|e'] eqn:Eo.
  2:{ rewrite res_outcome. intros E. injection E as <-.
      unfold is_import_error. rewrite (main_output_error a e' Eo). reflexivity. }
  cbv zeta. destruct (returns_choose_addon h a w) as [use Eu]. rewrite Eu.
  rewrite guarded_repair_run. cbv zeta.
  destruct (outcome (repair_stl h (input a) out use (main_suffix a)
                       (world (choose_addon h a w)))) as [f|e'|c];
    rewrite !res_outcome; discriminate.
Qed.

(** X19.  When [from stl_repair.cli import main] succeeds, the legacy script
    [main.py] behaves exactly as the command line does: its [except
    ImportError] handler never fires for a failure of [main] or of the
    [import bpy] guard, so nothing is printed and the result, the exit status
    included, is that of the CLI. *)
Theorem legacy_script_runs_cli {H : Type} (s : Startup H) (a : Args)
  (w : World H) :
  legacy_main (PkgLoaded s) a w = mkLegacy (run_cli s a w) []
  /\ exit_status (outcome (leg_result (legacy_main (PkgLoaded s) a w)))
     = exit_status (outcome (run_cli s a w)).
Proof.
  assert (E : legacy_main (PkgLoaded s) a w = mkLegacy (run_cli s a w) []).
  { unfold legacy_main. cbv zeta.
    destruct (outcome (run_cli s a w)) as [u|e|c] eqn:Eo; try reflexivity.
    destruct s as [e0|h].
    - cbn in Eo. discriminate.
    - cbn [run_cli] in Eo.
      rewrite (main_raises_no_import_error h a w e Eo). reflexivity. }
  rewrite E. split; reflexivity.
Qed.

(** When the import of the package raises [ImportError] (or
    [ModuleNotFoundError]) the legacy script prints its two lines and exits
    with 1 without logging or calling anything; any other exception of the
    import is not caught. *)
Lemma legacy_script_without_package {H : Type} (e : pyexn) (a : Args)
  (w : World H) :
  let r := legacy_main (PkgMissing e) a w in
  world (leg_result r) = w /\ events (leg_result r) = []
  /\ (if is_import_error e
      then outcome (leg_result r) = Exit 1
           /\ leg_stdout r = not_installed_message
      else outcome (leg_result r) = Raise e /\ leg_stdout r = []).
Proof.
  cbv zeta. unfold legacy_main. cbv zeta. unfold raise. rewrite res_outcome.
  destruct (is_import_error e); cbn; auto.
Qed.
